(** * Run tracking (ersilia/core/tracking.py)

    A shallow embedding of the run tracker: the session log on the file
    system, the profiler state of [RunTracker], the shape and type check of
    a result frame against the model metadata, the per-column statistics and
    the size accounting.

    Python values are embedded as follows.
    - Exceptions: a function that can raise returns a [result], and
      statements are sequenced with the bind of that monad, in the order in
      which Python evaluates them (left operand first, [and] short-circuits).
    - [dict] with string keys: [gmap string _].
    - JSON values of the metadata: [pyval].
    - pandas frames: a list of named, typed columns.  A cell of a [float64]
      column is a rational or the missing value [None] (NaN); every finite
      binary64 number is a rational, so the data is embedded exactly.
      Arithmetic on these cells is exact: the rounding of binary64 is not
      modelled, the special values of a quotient (NaN, infinities) are.
    - [print] only narrates the outcome on the console and is left out. *)

From Stdlib Require Import Ascii String ZArith QArith Qcanon Qreals.
From Stdlib Require Import Rbase Rfunctions R_sqrt Lra Lia.
From stdpp Require Import base option list strings gmap.

Set Warnings "-register-all".
Local Open Scope Z_scope.
Local Open Scope string_scope.

(** ** Exceptions and the result monad *)

Inductive exn : Type :=
| KeyError
| IndexError
| TypeError
| IsADirectoryError.

Inductive result (A : Type) : Type :=
| Return (a : A)
| Raise (e : exn).
Arguments Return {A} a.
Arguments Raise {A} e.

#[global] Instance result_ret : MRet result := λ A a, Return a.
#[global] Instance result_bind : MBind result := λ A B f m,
  match m with
  | Return a => f a
  | Raise e => Raise e
  end.

Definition raises {A} (m : result A) : Prop := ∃ e, m = Raise e.
Definition returns {A} (m : result A) : Prop := ∃ a, m = Return a.

(** ** JSON values and dictionaries *)

Inductive pyval : Type :=
| PNone
| PBool (b : bool)
| PInt (z : Z)
| PStr (s : string)
| PList (l : list pyval)
| PDict (d : list (string * pyval)).

(** [d[k]] on a dictionary with string keys. *)
Definition dict_getitem {V} (d : gmap string V) (k : string) : result V :=
  match d !! k with
  | Some v => Return v
  | None => Raise KeyError
  end.

(** [v[0]]: the first character of a string, the first element of a list.
    The keys of a JSON object are strings, so the integer key [0] is absent
    from a dictionary; the other values are not subscriptable. *)
Definition getitem0 (v : pyval) : result pyval :=
  match v with
  | PStr EmptyString => Raise IndexError
  | PStr (String c _) => Return (PStr (String c EmptyString))
  | PList [] => Raise IndexError
  | PList (x :: _) => Return x
  | PDict _ => Raise KeyError
  | PNone | PBool _ | PInt _ => Raise TypeError
  end.

(** [s != v] for a string [s]: only an equal string compares equal. *)
Definition str_ne (s : string) (v : pyval) : bool :=
  match v with
  | PStr s' => negb (String.eqb s s')
  | _ => true
  end.

(** ** Frames *)

Inductive dtype : Type := float64 | int64 | object.

Inductive cells : Type :=
| FloatCells (xs : list (option Qc))
| IntCells (xs : list Z)
| ObjectCells (xs : list (option string)).

Record Series : Type := { name : string; values : cells }.

Record DataFrame : Type := { columns : list Series; nrows : nat }.

Definition Series_dtype (s : Series) : dtype :=
  match values s with
  | FloatCells _ => float64
  | IntCells _ => int64
  | ObjectCells _ => object
  end.

(** [str(dtype)] *)
Definition dtype_str (d : dtype) : string :=
  match d with
  | float64 => "float64"
  | int64 => "int64"
  | object => "object"
  end.

(** The identifier columns, and [~df.columns.isin(["key", "input"])]. *)
Definition identifier_columns : list string := ["key"; "input"].

Definition not_identifier (c : Series) : bool :=
  bool_decide (name c ∉ identifier_columns).

(** ** check_types *)

Record ValidationResult : Type :=
  { mismatched_types : Z; correct_shape : bool }.

Definition typeDict : gmap string string :=
  <["float64" := "Float"]> (<["int64" := "Int"]> ∅).

(** [resultDf.loc[:, ~resultDf.columns.isin(["key", "input"])].dtypes] *)
Definition dtypesLst_of (resultDf : DataFrame) : list dtype :=
  Series_dtype <$> filter (λ c, not_identifier c = true) (columns resultDf).

(** The loop [for i in dtypesLst], with the counter threaded through. *)
Fixpoint check_types_loop (metadata : gmap string pyval)
    (dtypesLst : list dtype) (count : Z) : result Z :=
  match dtypesLst with
  | [] => mret count
  | i :: rest =>
      label ← dict_getitem typeDict (dtype_str i);
      output_type ← dict_getitem metadata "Output Type";
      first ← getitem0 output_type;
      check_types_loop metadata rest
        (if str_ne label first then count + 1 else count)
  end.

(** [n_ok and metadata["Output Shape"] != expected]: the dictionary is read
    only when the left operand is true. *)
Definition shape_differs (metadata : gmap string pyval) (n_ok : bool)
    (expected : string) : result bool :=
  if n_ok then
    shape ← dict_getitem metadata "Output Shape";
    mret (str_ne expected shape)
  else mret false.

Definition check_types (resultDf : DataFrame) (metadata : gmap string pyval)
    : result ValidationResult :=
  let dtypesLst := dtypesLst_of resultDf in
  count ← check_types_loop metadata dtypesLst 0;
  not_list ← shape_differs metadata
                (bool_decide (1 < length dtypesLst)%nat) "List";
  if not_list : bool then
    mret {| mismatched_types := count; correct_shape := false |}
  else
    not_single ← shape_differs metadata
                    (bool_decide (length dtypesLst = 1%nat)) "Single";
    if not_single : bool then
      mret {| mismatched_types := count; correct_shape := false |}
    else
      mret {| mismatched_types := count; correct_shape := true |}.

(** ** The session log *)

(** The part of the file system the session log touches: a path names a
    regular file with its text, a directory, or nothing. *)
Inductive node : Type :=
| File (text : string)
| Directory.

Definition newline : string := String "010"%char EmptyString.

(** [os.path.isfile] *)
Definition isfile (fs : gmap string node) (path : string) : bool :=
  match fs !! path with
  | Some (File _) => true
  | _ => false
  end.

(** [open(path, "w")] followed by one [write]: the file is created or
    truncated; a directory cannot be opened for writing. *)
Definition write_text (fs : gmap string node) (path text : string)
    : result (gmap string node) :=
  match fs !! path with
  | Some Directory => Raise IsADirectoryError
  | _ => Return (<[path := File text]> fs)
  end.

(** [open(path, "a")] followed by one [write]. *)
Definition append_text (fs : gmap string node) (path text : string)
    : result (gmap string node) :=
  match fs !! path with
  | Some Directory => Raise IsADirectoryError
  | Some (File old) => Return (<[path := File (old ++ text)]> fs)
  | None => Return (<[path := File text]> fs)
  end.

Section SessionLog.
(** [os.path.abspath("current_session.txt")], fixed when the module is
    loaded. *)
Variable PERSISTENT_FILE_PATH : string.

Definition session_header (model_id : string) : string :=
  "Session started for model: " ++ model_id ++ newline.

Definition open_persistent_file (model_id : string)
    (fs : gmap string node) : result (gmap string node) :=
  write_text fs PERSISTENT_FILE_PATH (session_header model_id).

Definition write_persistent_file (contents : string)
    (fs : gmap string node) : result (gmap string node) :=
  if isfile fs PERSISTENT_FILE_PATH then
    append_text fs PERSISTENT_FILE_PATH (contents ++ newline)
  else mret fs.

(** A run of writes, one after the other. *)
Fixpoint write_all (writes : list string) (fs : gmap string node)
    : result (gmap string node) :=
  match writes with
  | [] => mret fs
  | contents :: rest =>
      fs' ← write_persistent_file contents fs;
      write_all rest fs'
  end.

(** What reading the session file back gives. *)
Definition read_session (fs : gmap string node) : option string :=
  match fs !! PERSISTENT_FILE_PATH with
  | Some (File text) => Some text
  | _ => None
  end.
End SessionLog.

(** The text of the written lines, in order. *)
Definition lines_text (writes : list string) : string :=
  foldr (λ contents acc, contents ++ newline ++ acc) "" writes.

(** ** The profiler *)

(** The process-wide state of [tracemalloc]. *)
Record tracemalloc : Type :=
  { tracing : bool; traced_current : Z; traced_peak : Z }.


(** [(0, 0)] while the module is not tracing. *)
Definition get_traced_memory (tm : tracemalloc) : Z * Z :=
  if tracing tm then (traced_current tm, traced_peak tm) else (0, 0).

Definition tracemalloc_stop (tm : tracemalloc) : tracemalloc :=
  {| tracing := false; traced_current := 0; traced_peak := 0 |}.

(** [time_start] is [None] or a [datetime], here in microseconds. *)
Record RunTracker : Type :=
  { time_start : option Z; memory_usage_start : Z }.

Definition RunTracker_init : RunTracker :=
  {| time_start := None; memory_usage_start := 0 |}.


Definition get_peak_memory (self : RunTracker) (tm : tracemalloc)
    : result (Z * tracemalloc) :=
  let peak_memory := (get_traced_memory tm).2 - memory_usage_start self in
  mret (peak_memory, tracemalloc_stop tm).

(** [datetime.now() - self.time_start] in [track]: a [datetime] minus
    [None] is a [TypeError]. *)
Definition time_taken (now : Z) (self : RunTracker) : result Z :=
  match time_start self with
  | Some started => Return (now - started)
  | None => Raise TypeError
  end.

(** ** numpy and pandas reductions *)

(** A [float64] result: a finite number, or one of the special values. *)
Inductive np_float (A : Type) : Type :=
| NaN
| PInf
| NInf
| Fin (x : A).
Arguments NaN {A}.
Arguments PInf {A}.
Arguments NInf {A}.
Arguments Fin {A} x.

(** What a column holds and a reduction returns: [numpy.int64], [float64]
    or [str]. *)
Inductive scalar : Type :=
| SInt (z : Z)
| SFloat (x : np_float Qc)
| SStr (s : string).

Definition Qc_of_Z (z : Z) : Qc := Q2Qc (inject_Z z).
Definition Qc_of_nat (n : nat) : Qc := Qc_of_Z (Z.of_nat n).
Definition Qc_sum (xs : list Qc) : Qc := foldr Qcplus (Q2Qc 0) xs.
Definition Qc_min (x y : Qc) : Qc := if Qclt_le_dec y x then y else x.
Definition Qc_max (x y : Qc) : Qc := if Qclt_le_dec x y then y else x.

(** [skipna=True]: the missing cells are left out first. *)
Definition dropna {A} (xs : list (option A)) : list A := omap id xs.

Section Mode.
Context {A : Type} `{EqDecision A}.

Definition frequency (v : A) (xs : list A) : nat :=
  length (filter (λ x, x = v) xs).

Definition max_frequency (xs : list A) : nat :=
  max_list ((λ v, frequency v xs) <$> xs).

(** [Series.mode()]: every value that occurs most often, each once.
    pandas returns them sorted; [stats] reads the length of the result and
    its only element, so the order is left as the order of first
    occurrence. *)
Definition mode_values (xs : list A) : list A :=
  filter (λ v, frequency v xs = max_frequency xs) (remove_dups xs).

End Mode.

(** [Series.mean()]: NaN on no values, else the sum over the count.  The
    quotient is kept exact here; pandas returns a binary64 number near it,
    and no property below depends on the finite value. *)
Definition nanmean (xs : list Qc) : np_float Qc :=
  match xs with
  | [] => NaN
  | _ => Fin (Qc_sum xs / Qc_of_nat (length xs))%Qc
  end.

Definition average (xs : list Qc) : Qc :=
  (Qc_sum xs / Qc_of_nat (length xs))%Qc.

Definition squared_deviations (xs : list Qc) : Qc :=
  Qc_sum ((λ x, (x - average xs) * (x - average xs))%Qc <$> xs).

(** [Series.var(ddof)]: the squared deviations from the mean over
    [count - ddof]; NaN when [count <= ddof].  The finite value is kept
    exact, as for the mean. *)
Definition nanvar (ddof : nat) (xs : list Qc) : np_float Qc :=
  if bool_decide (length xs ≤ ddof)%nat then NaN
  else Fin (squared_deviations xs / Qc_of_nat (length xs - ddof))%Qc.

(** [Series.std(ddof)] is the square root of [Series.var(ddof)]. *)
Definition nanstd (ddof : nat) (xs : list Qc) : np_float R :=
  match nanvar ddof xs with
  | Fin v => Fin (sqrt (Q2R v))
  | NaN => NaN
  | PInf => PInf
  | NInf => NInf
  end.

(** [Series.min()], [Series.max()]: NaN on no values. *)
Definition nanmin (xs : list Qc) : scalar :=
  match xs with
  | [] => SFloat NaN
  | x :: rest => SFloat (Fin (foldr Qc_min x rest))
  end.

Definition nanmax (xs : list Qc) : scalar :=
  match xs with
  | [] => SFloat NaN
  | x :: rest => SFloat (Fin (foldr Qc_max x rest))
  end.

Definition int_min (xs : list Z) : scalar :=
  match xs with
  | [] => SFloat NaN
  | x :: rest => SInt (foldr Z.min x rest)
  end.

Definition int_max (xs : list Z) : scalar :=
  match xs with
  | [] => SFloat NaN
  | x :: rest => SInt (foldr Z.max x rest)
  end.

(** ** stats *)

Record column_stats : Type :=
  { mean : np_float Qc;
    mode : option scalar;
    min : scalar;
    max : scalar;
    std : np_float R }.

(** [x.iloc[0] if len(x) == 1 else None] *)
Definition only {A} (xs : list A) : option A :=
  match xs with
  | [x] => Some x
  | _ => None
  end.

(** The non-missing values of a column, as the reductions see them. *)
Definition observed (c : cells) : list scalar :=
  match c with
  | FloatCells xs => (λ x, SFloat (Fin x)) <$> dropna xs
  | IntCells xs => SInt <$> xs
  | ObjectCells xs => SStr <$> dropna xs
  end.

Definition observed_numbers (c : cells) : list Qc :=
  match c with
  | FloatCells xs => dropna xs
  | IntCells xs => Qc_of_Z <$> xs
  | ObjectCells _ => []
  end.

(** The body of the loop of [stats] on one column.  [std()] is called
    without arguments, so [ddof] has its default, 1.  On the text of an
    [object] column [mean()], the first reduction, raises [TypeError];
    an [object] column without any value, as every column of a file with a
    header only, gets the results of the reductions on no values. *)
Definition column_statistics (s : Series) : result column_stats :=
  match values s with
  | FloatCells xs =>
      let v := dropna xs in
      mret {| mean := nanmean v;
              mode := only ((λ x, SFloat (Fin x)) <$> mode_values v);
              min := nanmin v;
              max := nanmax v;
              std := nanstd 1 v |}
  | IntCells xs =>
      let v := Qc_of_Z <$> xs in
      mret {| mean := nanmean v;
              mode := only (SInt <$> mode_values xs);
              min := int_min xs;
              max := int_max xs;
              std := nanstd 1 v |}
  | ObjectCells xs =>
      match dropna xs with
      | [] =>
          mret {| mean := NaN; mode := None; min := SFloat NaN;
                  max := SFloat NaN; std := NaN |}
      | _ :: _ => Raise TypeError
      end
  end.

(** [df.drop(labels, axis=1)]: every label has to be there. *)
Definition drop (labels : list string) (df : DataFrame) : result DataFrame :=
  if bool_decide (Forall (λ l, l ∈ name <$> columns df) labels) then
    Return {| columns := filter (λ c, name c ∉ labels) (columns df);
              nrows := nrows df |}
  else Raise KeyError.

(** [dat[column]] *)
Definition getitem_column (dat : DataFrame) (column : string)
    : result Series :=
  match list_find (λ c, name c = column) (columns dat) with
  | Some (_, c) => Return c
  | None => Raise KeyError
  end.

(** The loop [for column in dat], with the dictionary threaded through. *)
Fixpoint stats_loop (dat : DataFrame) (labels : list string)
    (stats : gmap string column_stats) : result (gmap string column_stats) :=
  match labels with
  | [] => mret stats
  | column :: rest =>
      s ← getitem_column dat column;
      column_stats ← column_statistics s;
      stats_loop dat rest (<[column := column_stats]> stats)
  end.

(** [stats], from the frame that [read_csv] returns. *)
Definition stats (frame : DataFrame) : result (gmap string column_stats) :=
  dat ← drop ["key"; "input"] frame;
  stats_loop dat (name <$> columns dat) ∅.

(** ** get_file_sizes *)

(** [x / n] for a [float64] [x] and a Python integer [n]: numpy divides by
    zero without raising, the quotient is an infinity, or NaN for [0 / 0].
    For [n] other than 0 the quotient is kept exact; numpy rounds it to
    binary64, which keeps its sign. *)
Definition float64_div_int (x : np_float Qc) (n : Z) : np_float Qc :=
  match x with
  | NaN => NaN
  | PInf => if bool_decide (n < 0) then NInf else PInf
  | NInf => if bool_decide (n < 0) then PInf else NInf
  | Fin q =>
      if bool_decide (n = 0) then
        match (q ?= Q2Qc 0)%Qc with
        | Gt => PInf
        | Lt => NInf
        | Eq => NaN
        end
      else Fin (q / Qc_of_Z n)%Qc
  end.

(** [numpy.int64 / int] is a [float64]. *)
Definition int64_div_int (x n : Z) : np_float Qc :=
  float64_div_int (Fin (Qc_of_Z x)) n.

Record file_sizes : Type :=
  { input_size : np_float Qc;
    output_size : np_float Qc;
    avg_input_size : np_float Qc;
    avg_output_size : np_float Qc }.

Section FileSizes.
(** [df.memory_usage(deep=True)]: the bytes of the index and of each
    column, as pandas measures them. *)
Variable memory_usage : DataFrame → list Z.

Definition get_file_sizes (input_df output_df : DataFrame)
    : result file_sizes :=
  let input_size := int64_div_int (foldr Z.add 0 (memory_usage input_df)) 1024 in
  let output_size := int64_div_int (foldr Z.add 0 (memory_usage output_df)) 1024 in
  let input_avg_row_size :=
    float64_div_int input_size (Z.of_nat (nrows input_df)) in
  let output_avg_row_size :=
    float64_div_int output_size (Z.of_nat (nrows output_df)) in
  mret {| input_size := input_size;
          output_size := output_size;
          avg_input_size := input_avg_row_size;
          avg_output_size := output_avg_row_size |}.
End FileSizes.


(** ** Exceptions of the operating system calls and of attribute access *)

From stdpp Require pretty.

Inductive error : Type :=
| FileNotFoundError
| NotADirectoryError
| AttributeError
| Exn (e : exn).

Inductive outcome (A : Type) : Type :=
| Value (a : A)
| Error (e : error).
Arguments Value {A} a.
Arguments Error {A} e.

Definition lift {A} (m : result A) : outcome A :=
  match m with
  | Return a => Value a
  | Raise e => Error (Exn e)
  end.

(** ** log_files_metrics *)

(** [needle in haystack] on strings. *)
Fixpoint contains (needle haystack : string) : bool :=
  String.prefix needle haystack ||
  match haystack with
  | EmptyString => false
  | String _ rest => contains needle rest
  end.

Definition carriage_return : ascii := "013"%char.
Definition line_feed : ascii := "010"%char.

(** The lines a text file yields when it is iterated: a line ends after a
    line feed, a carriage return, or the two in a row, each read as one
    newline; the text after the last of them is a line without one. *)
Fixpoint lines_from (current text : string) : list string :=
  match text with
  | EmptyString =>
      match current with
      | EmptyString => []
      | _ => [current]
      end
  | String c rest =>
      if Ascii.eqb c line_feed then
        (current ++ newline) :: lines_from "" rest
      else if Ascii.eqb c carriage_return then
        match rest with
        | String c' rest' =>
            if Ascii.eqb c' line_feed then
              (current ++ newline) :: lines_from "" rest'
            else (current ++ newline) :: lines_from "" rest
        | EmptyString => (current ++ newline) :: lines_from "" rest
        end
      else lines_from (current ++ String c EmptyString) rest
  end.

Definition file_lines (text : string) : list string := lines_from "" text.

(** [open(path, "r")] and reading the file to its end. *)
Definition read_text (fs : gmap string node) (path : string)
    : outcome string :=
  match fs !! path with
  | Some (File text) => Value text
  | Some Directory => Error (Exn IsADirectoryError)
  | None => Error FileNotFoundError
  end.

(** The loop [for line in file], with both counters threaded through. *)
Fixpoint count_lines (lines : list string) (error_count warning_count : Z)
    : Z * Z :=
  match lines with
  | [] => (error_count, warning_count)
  | line :: rest =>
      if contains "| ERROR" line then
        count_lines rest (error_count + 1) warning_count
      else if contains "| WARNING" line then
        count_lines rest error_count (warning_count + 1)
      else count_lines rest error_count warning_count
  end.

Section SessionArchive.
Variable PERSISTENT_FILE_PATH : string.
(** [os.path.abspath("")]: the working directory in which the module was
    loaded. *)
Variable TEMP_FILE_LOGS : string.

(** A function that changes files returns its outcome and the file system
    it leaves, also when it raises. *)
Definition log_files_metrics (file : string) (fs : gmap string node)
    : outcome () * gmap string node :=
  match read_text fs file with
  | Error e => (Error e, fs)
  | Value text =>
      let counts := count_lines (file_lines text) 0 0 in
      match write_persistent_file PERSISTENT_FILE_PATH
              ("Error count: " ++ pretty.pretty counts.1) fs with
      | Raise e => (Error (Exn e), fs)
      | Return fs1 =>
          match write_persistent_file PERSISTENT_FILE_PATH
                  ("Warning count: " ++ pretty.pretty counts.2) fs1 with
          | Raise e => (Error (Exn e), fs1)
          | Return fs2 => (Value (), fs2)
          end
      end
  end.

(** [os.rename(src, dst)] on a POSIX system: a regular file replaces a
    regular file at [dst] and fails on a directory there. *)
Definition rename (src dst : string) (fs : gmap string node)
    : outcome () * gmap string node :=
  match fs !! src with
  | None => (Error FileNotFoundError, fs)
  | Some (File text) =>
      match fs !! dst with
      | Some Directory => (Error (Exn IsADirectoryError), fs)
      | _ => (Value (), <[dst := File text]> (delete src fs))
      end
  | Some Directory =>
      match fs !! dst with
      | Some (File _) => (Error NotADirectoryError, fs)
      | _ => (Value (), <[dst := Directory]> (delete src fs))
      end
  end.

(** [new_file_path] is the path that [close_persistent_file] builds from
    the directory of the session file and the time of the call. *)
Definition close_persistent_file (new_file_path : string)
    (fs : gmap string node) : outcome () * gmap string node :=
  if isfile fs PERSISTENT_FILE_PATH then
    match log_files_metrics TEMP_FILE_LOGS fs with
    | (Error e, fs1) => (Error e, fs1)
    | (Value _, fs1) => rename PERSISTENT_FILE_PATH new_file_path fs1
    end
  else (Value (), fs).
End SessionArchive.

(** The two paths as the module computes them when it is loaded in the
    working directory [cwd]: [os.path.abspath] joins the name to the
    directory, and the empty name gives the directory itself. *)
Fixpoint ends_with_slash (path : string) : bool :=
  match path with
  | EmptyString => false
  | String c EmptyString => Ascii.eqb c "/"%char
  | String _ rest => ends_with_slash rest
  end.

Definition abspath (cwd name : string) : string :=
  match name with
  | EmptyString => cwd
  | _ => if ends_with_slash cwd then cwd ++ name else cwd ++ "/" ++ name
  end.

Definition PERSISTENT_FILE_PATH (cwd : string) : string :=
  abspath cwd "current_session.txt".

Definition TEMP_FILE_LOGS (cwd : string) : string := abspath cwd "".

(** [close_persistent_file] as the module has it. *)
Definition close_session (cwd new_file_path : string)
    (fs : gmap string node) : outcome () * gmap string node :=
  close_persistent_file (PERSISTENT_FILE_PATH cwd) (TEMP_FILE_LOGS cwd)
    new_file_path fs.

(** ** tracemalloc while the model runs *)



(** ** track *)

(** [df.isna().sum()], for every column of the frame. *)
Definition isna_count (c : cells) : Z :=
  match c with
  | FloatCells xs => Z.of_nat (length (filter (λ x, x = None) xs))
  | IntCells _ => 0
  | ObjectCells xs => Z.of_nat (length (filter (λ x, x = None) xs))
  end.

Definition nan_count (df : DataFrame) : list (string * Z) :=
  (λ c, (name c, isna_count (values c))) <$> columns df.

(** [v.get(key, default)]: only a dictionary has the method. *)
Definition pyval_get (v : pyval) (key : string) (default : pyval)
    : outcome pyval :=
  match v with
  | PDict d => Value (from_option id default (list_to_map (M := gmap string pyval) d !! key))
  | _ => Error AttributeError
  end.

(** A JSON object as the dictionary that [check_types] reads. *)
Definition pyval_dict (v : pyval) : gmap string pyval :=
  match v with
  | PDict d => list_to_map d
  | _ => ∅
  end.

(** The dictionary that [track] builds before it serialises, logs and
    uploads it.  The duration is kept as a number, not as its text. *)
Record json_dict : Type :=
  { json_input_dataframe : DataFrame;
    json_result_dataframe : DataFrame;
    json_meta : gmap string pyval;
    json_model_id : pyval;
    json_time_taken : Z;
    json_nan_count : list (string * Z);
    json_check_types : ValidationResult;
    json_stats : gmap string column_stats;
    json_file_sizes : file_sizes;
    json_peak_memory_use : Z }.

Section Track.
Variable memory_usage : DataFrame → list Z.

(** [track] up to [json_dict["peak_memory_use"]], from the frames that the
    two calls of [read_csv] return; [stats] reads the result file again and
    gets the same frame.  Of the steps only [get_peak_memory], the last,
    starts or stops tracing; the memory that the earlier steps allocate is
    not followed, so the sizes in [tm] are those that this step reads. *)
Definition track_json_dict (self : RunTracker) (now : Z)
    (input_dataframe result_dataframe : DataFrame)
    (meta : gmap string pyval) (tm : tracemalloc)
    : outcome json_dict * tracemalloc :=
  match dict_getitem meta "metadata" with
  | Raise e => (Error (Exn e), tm)
  | Return metadata =>
  match pyval_get metadata "Identifier" (PStr "Unknown") with
  | Error e => (Error e, tm)
  | Value model_id =>
  match time_taken now self with
  | Raise e => (Error (Exn e), tm)
  | Return time =>
  match check_types result_dataframe (pyval_dict metadata) with
  | Raise e => (Error (Exn e), tm)
  | Return checked =>
  match stats result_dataframe with
  | Raise e => (Error (Exn e), tm)
  | Return statistics =>
  match get_file_sizes memory_usage input_dataframe result_dataframe with
  | Raise e => (Error (Exn e), tm)
  | Return sizes =>
  match get_peak_memory self tm with
  | Raise e => (Error (Exn e), tm)
  | Return (peak_memory, tm') =>
      (Value {| json_input_dataframe := input_dataframe;
                json_result_dataframe := result_dataframe;
                json_meta := meta;
                json_model_id := model_id;
                json_time_taken := time;
                json_nan_count := nan_count result_dataframe;
                json_check_types := checked;
                json_stats := statistics;
                json_file_sizes := sizes;
                json_peak_memory_use := peak_memory |}, tm')
  end end end end end end end.
End Track.
(** * Specification-side definitions *)

(** The columns the validator looks at. *)
Definition non_identifier (df : DataFrame) : list Series :=
  filter (λ c, not_identifier c = true) (columns df).

(** The canonical label of a column type; text has none. *)
Definition canonical_label (d : dtype) : option string :=
  match d with
  | float64 => Some "Float"
  | int64 => Some "Int"
  | object => None
  end.

Definition numeric (c : Series) : Prop := Series_dtype c ≠ object.

(** A column whose canonical label differs from the value [v]. *)
Definition mismatches (v : pyval) (c : Series) : bool :=
  match canonical_label (Series_dtype c) with
  | Some label => str_ne label v
  | None => true
  end.

Definition mismatch_count (v : pyval) (df : DataFrame) : Z :=
  Z.of_nat (length (filter (λ c, mismatches v c = true) (non_identifier df))).


#[global] Instance np_float_eq_dec {A} `{EqDecision A} : EqDecision (np_float A).
Proof. solve_decision. Defined.
#[global] Instance scalar_eq_dec : EqDecision scalar.
Proof. solve_decision. Defined.

(** The labels of a frame; [read_csv] renames repeated headers, so the
    labels of a frame it returns are pairwise distinct. *)
Definition labels (df : DataFrame) : list string := name <$> columns df.

(** [v] occurs in [xs], and strictly more often than any other value. *)
Definition strictly_most_frequent {A} `{EqDecision A}
    (v : A) (xs : list A) : Prop :=
  v ∈ xs ∧ ∀ w, w ∈ xs → w ≠ v → (frequency w xs < frequency v xs)%nat.

(** [v] is among the values that occur most often. *)
Definition ties_for_most_frequent {A} `{EqDecision A}
    (v : A) (xs : list A) : Prop :=
  v ∈ xs ∧ ∀ w, w ∈ xs → (frequency w xs ≤ frequency v xs)%nat.

(** The non-missing values of a column, read off its cells one by one. *)
Fixpoint present {A} (xs : list (option A)) : list A :=
  match xs with
  | [] => []
  | Some x :: rest => x :: present rest
  | None :: rest => present rest
  end.

Definition non_missing (c : cells) : list scalar :=
  match c with
  | FloatCells xs => (λ x, SFloat (Fin x)) <$> present xs
  | IntCells xs => SInt <$> xs
  | ObjectCells xs => SStr <$> present xs
  end.

(** How often [v] occurs among the values [xs]. *)
Definition occurrences (v : scalar) (xs : list scalar) : nat :=
  count_occ scalar_eq_dec xs v.

(** [v] occurs strictly more often than every other value. *)
Definition unique_mode (v : scalar) (xs : list scalar) : Prop :=
  ∀ w, w ≠ v → (occurrences w xs < occurrences v xs)%nat.

(** Two different values, [v] and [w], share the highest frequency. *)
Definition two_modes (v w : scalar) (xs : list scalar) : Prop :=
  v ≠ w ∧ (0 < occurrences v xs)%nat ∧
  occurrences v xs = occurrences w xs ∧
  ∀ u, (occurrences u xs ≤ occurrences v xs)%nat.

(** The statistics of a column without any value. *)
Definition undefined_stats : column_stats :=
  {| mean := NaN; mode := None; min := SFloat NaN; max := SFloat NaN;
     std := NaN |}.

(** The bytes of a frame, and the [float64] quotient of a number of bytes
    by zero rows. *)
Definition total_bytes (memory_usage : DataFrame → list Z) (df : DataFrame)
    : Z :=
  foldr Z.add 0 (memory_usage df).

Definition quotient_by_zero (bytes : Z) : np_float Qc :=
  match (bytes ?= 0)%Z with
  | Gt => PInf
  | Lt => NInf
  | Eq => NaN
  end.

(** The order of two numbers of one kind. *)
Definition scalar_le (v w : scalar) : Prop :=
  match v, w with
  | SInt a, SInt b => (a ≤ b)%Z
  | SFloat (Fin p), SFloat (Fin q) => (p <= q)%Qc
  | _, _ => False
  end.

(** The lines that [log_files_metrics] counts as errors, and as warnings:
    a line with both markers is an error. *)
Definition error_line (line : string) : Prop :=
  contains "| ERROR" line = true.

Definition warning_line (line : string) : Prop :=
  contains "| ERROR" line = false ∧ contains "| WARNING" line = true.

(** The two lines that [log_files_metrics] writes. *)
Definition metrics_text (log : string) : string :=
  let counts := count_lines (file_lines log) 0 0 in
  ("Error count: " ++ pretty.pretty counts.1 ++ newline) ++
  ("Warning count: " ++ pretty.pretty counts.2 ++ newline).

#[global] Instance error_line_dec line : Decision (error_line line).
Proof. unfold error_line. apply _. Defined.
#[global] Instance warning_line_dec line : Decision (warning_line line).
Proof. unfold warning_line. apply _. Defined.

(** * Example inputs *)

Definition key_column : Series :=
  {| name := "key"; values := ObjectCells [Some "k1"; Some "k2"] |}.
Definition input_column : Series :=
  {| name := "input"; values := ObjectCells [Some "CCO"; Some "CCN"] |}.

(** One float column next to the identifier columns. *)
Definition one_float_frame : DataFrame :=
  {| columns := [key_column; input_column;
                 {| name := "value";
                    values := FloatCells [Some (Q2Qc (1 # 2)); Some (Q2Qc 3)] |}];
     nrows := 2 |}.

(** Three float columns next to the identifier columns. *)
Definition three_float_frame : DataFrame :=
  {| columns := [key_column; input_column;
                 {| name := "a"; values := FloatCells [Some (Q2Qc 1); None] |};
                 {| name := "b"; values := FloatCells [Some (Q2Qc 2); None] |};
                 {| name := "c"; values := FloatCells [None; Some (Q2Qc 3)] |}];
     nrows := 2 |}.

(** Nothing but the identifier columns. *)
Definition identifiers_only_frame : DataFrame :=
  {| columns := [key_column; input_column]; nrows := 2 |}.

(** The output type as a plain string, and as the list that [[0]] expects. *)
Definition float_single_metadata : gmap string pyval :=
  <["Output Type" := PStr "Float"]> (<["Output Shape" := PStr "Single"]> ∅).
Definition float_list_single_metadata : gmap string pyval :=
  <["Output Type" := PList [PStr "Float"]]>
    (<["Output Shape" := PStr "Single"]> ∅).
Definition float_list_list_metadata : gmap string pyval :=
  <["Output Type" := PList [PStr "Float"]]>
    (<["Output Shape" := PStr "List"]> ∅).

(** A file system without the session file, and [tracemalloc] at rest. *)
Definition session_path : string := "/home/ersilia/current_session.txt".
Definition empty_disk : gmap string node := ∅.
Definition idle_tracemalloc : tracemalloc :=
  {| tracing := false; traced_current := 0; traced_peak := 0 |}.

(** Frames with one integer or float column next to the identifiers. *)
Definition identifier_cells (rows : nat) : cells :=
  ObjectCells (replicate rows (Some "CCO")).

Definition frame_of (rows : nat) (data : cells) : DataFrame :=
  {| columns := [{| name := "key"; values := identifier_cells rows |};
                 {| name := "input"; values := identifier_cells rows |};
                 {| name := "value"; values := data |}];
     nrows := rows |}.

Definition tied_frame : DataFrame := frame_of 4 (IntCells [1; 1; 2; 2]).
Definition single_mode_frame : DataFrame := frame_of 3 (IntCells [1; 1; 2]).
Definition all_null_frame : DataFrame := frame_of 2 (FloatCells [None; None]).
Definition missing_mode_frame : DataFrame :=
  frame_of 4 (FloatCells [Some (Q2Qc (3 # 2)); None;
                          Some (Q2Qc (3 # 2)); Some (Q2Qc (5 # 2))]).

(** A frame without the [key] column. *)
Definition no_key_frame : DataFrame :=
  {| columns := [{| name := "input"; values := identifier_cells 2 |};
                 {| name := "value"; values := IntCells [1; 2] |}];
     nrows := 2 |}.

(** A memory measure: 128 bytes of index and 8 bytes a cell; and an input
    frame without rows. *)
Definition fixed_width_memory_usage (df : DataFrame) : list Z :=
  128 :: ((λ _, 8 * Z.of_nat (nrows df)) <$> columns df).

Definition empty_input_frame : DataFrame :=
  {| columns := [{| name := "input"; values := ObjectCells [] |}];
     nrows := 0 |}.

(** A frame whose data column holds text. *)
Definition text_frame : DataFrame :=
  frame_of 2 (ObjectCells [Some "active"; Some "inactive"]).

(** An integer and a float column next to the identifier columns. *)
Definition mixed_frame : DataFrame :=
  {| columns := [key_column; input_column;
                 {| name := "count"; values := IntCells [3; 4] |};
                 {| name := "score";
                    values := FloatCells [Some (Q2Qc (1 # 2)); None] |}];
     nrows := 2 |}.

Definition int_list_metadata : gmap string pyval :=
  <["Output Type" := PList [PStr "Int"]]>
    (<["Output Shape" := PStr "List"]> ∅).

(** One row, as for a single input. *)
Definition single_row_frame : DataFrame :=
  frame_of 1 (FloatCells [Some (Q2Qc (7 # 2))]).

(** A file with a header only: no rows, and text columns throughout. *)
Definition header_only_frame : DataFrame := frame_of 0 (ObjectCells []).

(** A working directory with an open session and a log file in it. *)
Definition work_directory : string := "/home/ersilia".
Definition log_path : string := "/home/ersilia/console.log".
Definition archive_path : string := "/home/ersilia/2024-05-17 9-30-00.txt".

Definition console_log : string :=
  "10:01 | INFO | fetching" ++ newline ++
  "10:02 | WARNING | slow download" ++ newline ++
  "10:03 | ERROR | after a | WARNING" ++ newline.

Definition session_disk : gmap string node :=
  <[session_path := File (session_header "eos3b5e")]>
    (<[log_path := File console_log]> (<[work_directory := Directory]> ∅)).

(** The metadata of a run as [track] receives it, and a started tracker. *)
Definition run_meta : gmap string pyval :=
  <["metadata" := PDict [("Identifier", PStr "eos3b5e");
                         ("Output Type", PList [PStr "Float"]);
                         ("Output Shape", PStr "Single")]]> ∅.

Definition busy_tracemalloc : tracemalloc :=
  {| tracing := true; traced_current := 4096; traced_peak := 10240 |}.
(** * Properties of check_types *)

Lemma dtypesLst_length df :
  length (dtypesLst_of df) = length (non_identifier df).
Proof. unfold dtypesLst_of, non_identifier. by rewrite length_fmap. Qed.

Lemma typeDict_lookup d :
  dict_getitem typeDict (dtype_str d) =
  match canonical_label d with
  | Some label => Return label
  | None => Raise KeyError
  end.
Proof. by destruct d; vm_compute. Qed.

Lemma check_types_loop_numeric md ot first cs count :
  md !! "Output Type" = Some ot →
  getitem0 ot = Return first →
  Forall numeric cs →
  check_types_loop md (Series_dtype <$> cs) count =
  Return (count + Z.of_nat (length (filter (λ c, mismatches first c = true) cs))).
Proof.
  intros Hot Hfirst Hnum. revert count.
  induction Hnum as [|c cs Hc _ IH]; intros count; simpl.
  { f_equal. lia. }
  rewrite typeDict_lookup, filter_cons. unfold numeric in Hc.
  destruct (canonical_label (Series_dtype c)) as [label|] eqn:Hl;
    [|by destruct (Series_dtype c)].
  assert (mismatches first c = str_ne label first) as Hm
    by (unfold mismatches; by rewrite Hl).
  simpl. unfold dict_getitem. rewrite Hot. simpl. rewrite Hfirst. simpl.
  rewrite IH, Hm. f_equal.
  destruct (str_ne label first); simpl; lia.
Qed.

Lemma check_types_loop_returns md cs count n :
  check_types_loop md (Series_dtype <$> cs) count = Return n →
  Forall numeric cs.
Proof.
  revert count. induction cs as [|c cs IH]; intros count; simpl; [by constructor|].
  rewrite typeDict_lookup.
  destruct (Series_dtype c) eqn:Hd; simpl; try done;
    destruct (dict_getitem md "Output Type"); simpl; try done;
    destruct (getitem0 _); simpl; try done;
    intros H%IH; (constructor; [unfold numeric; congruence|done]).
Qed.

Lemma shape_differs_false md expected :
  shape_differs md false expected = Return false.
Proof. done. Qed.

Lemma shape_differs_true md expected :
  shape_differs md true expected =
  match md !! "Output Shape" with
  | Some shape => Return (str_ne expected shape)
  | None => Raise KeyError
  end.
Proof.
  unfold shape_differs, dict_getitem. by destruct (md !! "Output Shape").
Qed.

Lemma str_ne_false s v : str_ne s v = false ↔ v = PStr s.
Proof.
  destruct v; simpl; try (split; [done|congruence]).
  rewrite negb_false_iff, String.eqb_eq. split; congruence.
Qed.

(** When the validator returns, and what its two fields then are. *)
Lemma check_types_inv df md r :
  check_types df md = Return r →
  ∃ count, check_types_loop md (dtypesLst_of df) 0 = Return count ∧
    mismatched_types r = count ∧
    (correct_shape r = true ↔
     ((1 < length (non_identifier df))%nat →
        md !! "Output Shape" = Some (PStr "List")) ∧
     (length (non_identifier df) = 1%nat →
        md !! "Output Shape" = Some (PStr "Single"))).
Proof.
  unfold check_types. rewrite dtypesLst_length.
  destruct (check_types_loop _ _ _) as [count|]; simpl; [|done].
  intros H. exists count. split; [done|].
  set (n := length (non_identifier df)) in *.
  destruct (bool_decide (1 < n)%nat) eqn:Hgt.
  - apply bool_decide_eq_true in Hgt.
    rewrite shape_differs_true in H.
    destruct (md !! "Output Shape") as [shape|] eqn:Hs; simpl in H; [|done].
    destruct (str_ne "List" shape) eqn:Hne; simpl in H.
    + injection H as <-. simpl. split; [done|].
      split; [done|]. intros [Hl _]. specialize (Hl Hgt).
      injection Hl as ->. done.
    + rewrite bool_decide_eq_false_2 in H by lia. simpl in H.
      injection H as <-. simpl. split; [done|]. split; [|done].
      split; [|lia]. intros _. f_equal. by apply str_ne_false.
  - apply bool_decide_eq_false in Hgt. simpl in H.
    destruct (bool_decide (n = 1%nat)) eqn:Heq.
    + apply bool_decide_eq_true in Heq.
      rewrite shape_differs_true in H.
      destruct (md !! "Output Shape") as [shape|] eqn:Hs; simpl in H; [|done].
      destruct (str_ne "Single" shape) eqn:Hne; simpl in H.
      * injection H as <-. simpl. split; [done|]. split; [done|].
        intros [_ Hl]. specialize (Hl Heq). injection Hl as ->. done.
      * injection H as <-. simpl. split; [done|]. split; [|done].
        split; [lia|]. intros _. f_equal. by apply str_ne_false.
    + apply bool_decide_eq_false in Heq. simpl in H.
      injection H as <-. simpl. split; [done|]. split; [|done]. split; lia.
Qed.

Lemma check_types_returns df md ot first :
  Forall numeric (non_identifier df) →
  md !! "Output Type" = Some ot →
  getitem0 ot = Return first →
  is_Some (md !! "Output Shape") →
  returns (check_types df md).
Proof.
  intros Hnum Hot Hfirst [shape Hs]. unfold check_types, dtypesLst_of.
  fold (non_identifier df).
  rewrite (check_types_loop_numeric md ot first) by done. simpl.
  unfold shape_differs, dict_getitem. rewrite Hs. simpl.
  unfold returns.
  repeat (case_bool_decide; simpl); repeat (destruct (str_ne _ _); simpl);
    eauto.
Qed.

(** C1, as stated, fails: with the output type declared as the string
    ["Float"] and one float column, [check_types] compares the label
    ["Float"] with the first character ["F"] and counts a mismatch, while no
    column has a label different from the declared value. *)
Lemma check_types_compares_first_character :
  check_types one_float_frame float_single_metadata =
    Return {| mismatched_types := 1; correct_shape := true |} ∧
  float_single_metadata !! "Output Type" = Some (PStr "Float") ∧
  mismatch_count (PStr "Float") one_float_frame = 0.
Proof. by vm_compute. Qed.

(** C1, amended: [mismatched_types] is the number of non-identifier columns
    whose canonical label ([Float] for float64, [Int] for int64) differs
    from the first element of [metadata["Output Type"]]; the validator
    returns whenever these columns are numeric, the output type has a first
    element and the output shape is declared. *)
Theorem check_types_counts_against_first_element
    (df : DataFrame) (md : gmap string pyval) (ot first : pyval) :
  md !! "Output Type" = Some ot →
  getitem0 ot = Return first →
  (∀ r, check_types df md = Return r →
        mismatched_types r = mismatch_count first df) ∧
  (Forall numeric (non_identifier df) → is_Some (md !! "Output Shape") →
   returns (check_types df md)).
Proof.
  intros Hot Hfirst. split.
  - intros r (count & Hloop & <- & _)%check_types_inv.
    unfold dtypesLst_of in Hloop. fold (non_identifier df) in Hloop.
    pose proof (check_types_loop_returns _ _ _ _ Hloop) as Hnum.
    rewrite (check_types_loop_numeric md ot first) in Hloop by done.
    injection Hloop as <-. unfold mismatch_count. lia.
  - intros Hnum Hshape. by eapply check_types_returns.
Qed.

Lemma check_types_counts_against_first_element_witness :
  (∀ r, check_types one_float_frame float_list_single_metadata = Return r →
        mismatched_types r =
        mismatch_count (PStr "Float") one_float_frame) ∧
  (Forall numeric (non_identifier one_float_frame) →
   is_Some (float_list_single_metadata !! "Output Shape") →
   returns (check_types one_float_frame float_list_single_metadata)).
Proof.
  apply (check_types_counts_against_first_element one_float_frame
           float_list_single_metadata (PList [PStr "Float"]) (PStr "Float"));
    reflexivity.
Defined.

(** C2: with at least one non-identifier column, [correct_shape] is true
    exactly when more than one such column goes with the shape ["List"] and
    exactly one with the shape ["Single"]; the validator returns whenever
    these columns are numeric, the output type has a first element and the
    output shape is declared. *)
Theorem check_types_shape
    (df : DataFrame) (md : gmap string pyval) :
  (1 ≤ length (non_identifier df))%nat →
  (∀ r, check_types df md = Return r →
     (correct_shape r = true ↔
      ((1 < length (non_identifier df))%nat →
         md !! "Output Shape" = Some (PStr "List")) ∧
      (length (non_identifier df) = 1%nat →
         md !! "Output Shape" = Some (PStr "Single")))) ∧
  (Forall numeric (non_identifier df) →
   (∃ ot first, md !! "Output Type" = Some ot ∧ getitem0 ot = Return first) →
   is_Some (md !! "Output Shape") →
   returns (check_types df md)).
Proof.
  intros _. split.
  - intros r (count & _ & _ & Hshape)%check_types_inv. exact Hshape.
  - intros Hnum (ot & first & Hot & Hfirst) Hshape.
    by eapply check_types_returns.
Qed.

Lemma check_types_shape_witness :
  check_types one_float_frame float_list_single_metadata =
    Return {| mismatched_types := 0; correct_shape := true |} ∧
  (correct_shape {| mismatched_types := 0; correct_shape := true |} = true ↔
   ((1 < length (non_identifier one_float_frame))%nat →
      float_list_single_metadata !! "Output Shape" = Some (PStr "List")) ∧
   (length (non_identifier one_float_frame) = 1%nat →
      float_list_single_metadata !! "Output Shape" = Some (PStr "Single"))).
Proof.
  assert (1 ≤ length (non_identifier one_float_frame))%nat as Hone
    by (vm_compute; lia).
  split; [reflexivity|].
  apply (proj1 (check_types_shape one_float_frame
                  float_list_single_metadata Hone)).
  reflexivity.
Defined.

(** The cases of the specification, with the output type given as a
    list: three float columns are a list, one float column is single. *)
Example check_types_three_floats_list :
  check_types three_float_frame float_list_list_metadata =
  Return {| mismatched_types := 0; correct_shape := true |}.
Proof. by vm_compute. Qed.

Example check_types_three_floats_single :
  check_types three_float_frame float_list_single_metadata =
  Return {| mismatched_types := 0; correct_shape := false |}.
Proof. by vm_compute. Qed.

Example check_types_one_float_single :
  check_types one_float_frame float_list_single_metadata =
  Return {| mismatched_types := 0; correct_shape := true |}.
Proof. by vm_compute. Qed.

Example check_types_one_float_list :
  check_types one_float_frame float_list_list_metadata =
  Return {| mismatched_types := 0; correct_shape := false |}.
Proof. by vm_compute. Qed.

(** C9: without any non-identifier column the validator returns, whatever
    the metadata holds, with no mismatch and [correct_shape = true]. *)
Theorem check_types_no_columns
    (df : DataFrame) (md : gmap string pyval) :
  length (non_identifier df) = 0%nat →
  check_types df md =
  Return {| mismatched_types := 0; correct_shape := true |}.
Proof.
  intros Hn. unfold check_types. rewrite dtypesLst_length, Hn.
  unfold dtypesLst_of. fold (non_identifier df).
  apply nil_length_inv in Hn. by rewrite Hn.
Qed.

Lemma check_types_no_columns_witness :
  check_types identifiers_only_frame ∅ =
  Return {| mismatched_types := 0; correct_shape := true |}.
Proof. apply check_types_no_columns. reflexivity. Defined.

(** * Properties of the session log *)

Lemma string_app_cons (a : ascii) (s t : string) :
  String a s ++ t = String a (s ++ t).
Proof. reflexivity. Qed.

Lemma string_app_nil_r (s : string) : s ++ "" = s.
Proof.
  induction s as [|a s' IH]; [reflexivity|].
  by rewrite string_app_cons, IH.
Qed.

Lemma string_app_assoc (s t u : string) : (s ++ t) ++ u = s ++ t ++ u.
Proof.
  induction s as [|a s' IH]; [reflexivity|].
  by rewrite !string_app_cons, IH.
Qed.

Section SessionLogProperties.
Variable path : string.

Lemma write_absent contents (fs : gmap string node) :
  isfile fs path = false → write_persistent_file path contents fs = Return fs.
Proof. unfold write_persistent_file. by intros ->. Qed.

Lemma write_present contents old (fs : gmap string node) :
  fs !! path = Some (File old) →
  write_persistent_file path contents fs =
  Return (<[path := File (old ++ contents ++ newline)]> fs).
Proof.
  intros Hfile. unfold write_persistent_file, isfile, append_text.
  by rewrite Hfile.
Qed.

Lemma write_all_present writes : ∀ old (fs : gmap string node),
  fs !! path = Some (File old) →
  write_all path writes fs =
  Return (<[path := File (old ++ lines_text writes)]> fs).
Proof.
  induction writes as [|contents writes IH]; intros old fs Hfile.
  - change (lines_text []) with "". rewrite string_app_nil_r.
    simpl. by rewrite insert_id.
  - change (lines_text (contents :: writes))
      with (contents ++ newline ++ lines_text writes).
    simpl. rewrite (write_present _ old) by done. simpl.
    rewrite (IH (old ++ contents ++ newline)) by apply lookup_insert_eq.
    by rewrite insert_insert_eq, !string_app_assoc.
Qed.

Lemma open_then_write_all model_id writes (fs : gmap string node) :
  fs !! path ≠ Some Directory →
  open_persistent_file path model_id fs ≫= write_all path writes =
  Return (<[path := File (session_header model_id ++ lines_text writes)]> fs).
Proof.
  intros Hdir. unfold open_persistent_file, write_text.
  destruct (fs !! path) as [[old|]|] eqn:Hfile; try done; simpl;
    rewrite (write_all_present _ (session_header model_id))
      by apply lookup_insert_eq;
    by rewrite insert_insert_eq.
Qed.

End SessionLogProperties.

(** C8: while the session file does not exist a write returns without an
    error and leaves the file system as it was; a write to the existing
    file appends [contents] and a newline; and after [open_persistent_file]
    a run of writes leaves the header followed by the written lines, in
    order, in the session file and touches no other path. *)
Theorem session_log_writes (path : string) (fs : gmap string node) :
  (∀ contents, isfile fs path = false →
     write_persistent_file path contents fs = Return fs) ∧
  (∀ old contents, fs !! path = Some (File old) →
     write_persistent_file path contents fs =
     Return (<[path := File (old ++ contents ++ newline)]> fs)) ∧
  (∀ model_id writes, fs !! path ≠ Some Directory →
     ∃ fs', open_persistent_file path model_id fs ≫= write_all path writes
              = Return fs' ∧
       read_session path fs' =
         Some (session_header model_id ++ lines_text writes) ∧
       ∀ other, other ≠ path → fs' !! other = fs !! other).
Proof.
  split; [|split].
  - intros contents. apply write_absent.
  - intros old contents. apply write_present.
  - intros model_id writes Hdir. eexists. split; [by apply open_then_write_all|].
    split.
    + unfold read_session. by rewrite lookup_insert_eq.
    + intros other Hother. by rewrite lookup_insert_ne.
Qed.

Lemma session_log_writes_witness :
  write_persistent_file session_path "Error count: 0" empty_disk
    = Return empty_disk ∧
  ∃ fs', open_persistent_file session_path "eos3b5e" empty_disk
           ≫= write_all session_path ["Error count: 0"; "Warning count: 2"]
           = Return fs' ∧
    read_session session_path fs' =
      Some (session_header "eos3b5e" ++
            lines_text ["Error count: 0"; "Warning count: 2"]) ∧
    ∀ other, other ≠ session_path → fs' !! other = empty_disk !! other.
Proof.
  pose proof (session_log_writes session_path empty_disk) as (Ha & _ & Ho).
  split.
  - apply Ha. reflexivity.
  - apply Ho. discriminate.
Defined.

(** * Properties of the profiler *)

(** C3, as stated, fails for the peak memory: on a tracker that was never
    started, with [tracemalloc] at rest, [get_peak_memory] returns 0. *)
Lemma get_peak_memory_without_start_returns :
  get_peak_memory RunTracker_init idle_tracemalloc =
    Return (0, idle_tracemalloc) ∧
  ¬ raises (get_peak_memory RunTracker_init idle_tracemalloc).
Proof. split; [reflexivity|]. intros [e He]. discriminate He. Qed.

(** C3, amended: on a tracker on which [start_tracking] was not called, the
    elapsed time fails, with [TypeError], and the peak memory does not: it
    is the traced peak less the initial baseline 0, and tracing is
    stopped. *)
Theorem queries_without_start (now : Z) (tm : tracemalloc) :
  time_taken now RunTracker_init = Raise TypeError ∧
  get_peak_memory RunTracker_init tm =
    Return ((get_traced_memory tm).2, tracemalloc_stop tm).
Proof.
  split; [reflexivity|].
  unfold get_peak_memory. simpl. by rewrite Z.sub_0_r.
Qed.

(** * Properties of the mode *)

Lemma only_Some {B} (l : list B) (x : B) : only l = Some x ↔ l = [x].
Proof. destruct l as [|y [|z l]]; simpl; split; congruence. Qed.

Lemma only_fmap {B C} (f : B → C) (l : list B) :
  only (f <$> l) = f <$> only l.
Proof. by destruct l as [|y [|z l]]. Qed.

Section ModeProperties.
Context {A : Type} `{EqDecision A}.
Implicit Types (xs : list A) (v w : A).

Lemma frequency_le_max v xs :
  v ∈ xs → (frequency v xs ≤ max_frequency xs)%nat.
Proof.
  intros Hv. apply max_list_elem_of_le, list_elem_of_fmap. eauto.
Qed.

Lemma max_frequency_attained xs :
  xs ≠ [] → ∃ v, v ∈ xs ∧ frequency v xs = max_frequency xs.
Proof.
  intros Hne. unfold max_frequency.
  destruct (list_elem_of_fmap_1 (λ v, frequency v xs) xs
              (max_list ((λ v, frequency v xs) <$> xs))) as (v & Hv & Hin).
  - apply max_list_elem_of. by destruct xs.
  - eauto.
Qed.

Lemma elem_of_mode_values v xs :
  v ∈ mode_values xs ↔ v ∈ xs ∧ frequency v xs = max_frequency xs.
Proof.
  unfold mode_values. rewrite list_elem_of_filter, elem_of_remove_dups. tauto.
Qed.

Lemma NoDup_mode_values xs : NoDup (mode_values xs).
Proof. apply NoDup_filter, NoDup_remove_dups. Qed.

Lemma NoDup_only l v : NoDup l → (∀ w, w ∈ l ↔ w = v) → l = [v].
Proof.
  intros Hnd Hall. destruct l as [|a [|b l]].
  - exfalso. eapply not_elem_of_nil, Hall. done.
  - f_equal. apply Hall. left.
  - exfalso. assert (a = v) as -> by (apply Hall; left).
    assert (b = v) as -> by (apply Hall; right; left).
    apply NoDup_cons in Hnd as [Hnotin _]. apply Hnotin. left.
Qed.

(** The most frequent values are exactly those [mode_values] lists. *)
Lemma ties_mode_values v xs :
  ties_for_most_frequent v xs ↔ v ∈ mode_values xs.
Proof.
  rewrite elem_of_mode_values. split.
  - intros [Hv Hmax]. split; [done|].
    destruct (max_frequency_attained xs) as (u & Hu & Hu_max).
    { intros ->. by apply not_elem_of_nil in Hv. }
    apply Nat.le_antisymm; [by apply frequency_le_max|].
    rewrite <- Hu_max. by apply Hmax.
  - intros [Hv Hmax]. split; [done|]. intros w Hw. rewrite Hmax.
    by apply frequency_le_max.
Qed.

(** [stats] keeps the mode exactly when one value is strictly the most
    frequent. *)
Lemma only_mode_values v xs :
  only (mode_values xs) = Some v ↔ strictly_most_frequent v xs.
Proof.
  rewrite only_Some. split.
  - intros Hmode.
    assert (∀ w, w ∈ mode_values xs ↔ w = v) as Hall.
    { intros w. rewrite Hmode. apply list_elem_of_singleton. }
    pose proof (proj2 (Hall v) eq_refl) as [Hv Hmax]%elem_of_mode_values.
    split; [done|]. intros w Hw Hne.
    pose proof (frequency_le_max w xs Hw) as Hle.
    destruct (decide (frequency w xs = max_frequency xs)) as [Heq|Hlt].
    + destruct Hne. apply Hall, elem_of_mode_values. done.
    + lia.
  - intros [Hv Hstrict]. apply NoDup_only; [apply NoDup_mode_values|].
    assert (frequency v xs = max_frequency xs) as Hmax.
    { destruct (max_frequency_attained xs) as (u & Hu & Hu_max).
      { intros ->. by apply not_elem_of_nil in Hv. }
      destruct (decide (u = v)) as [->|Hne]; [done|].
      pose proof (Hstrict u Hu Hne). pose proof (frequency_le_max v xs Hv).
      lia. }
    intros w. rewrite elem_of_mode_values. split.
    + intros [Hw Hw_max]. destruct (decide (w = v)) as [|Hne]; [done|].
      pose proof (Hstrict w Hw Hne). lia.
    + intros ->. done.
Qed.

Lemma only_mode_values_tie v w xs :
  v ≠ w → ties_for_most_frequent v xs → ties_for_most_frequent w xs →
  only (mode_values xs) = None.
Proof.
  intros Hne Hv%ties_mode_values Hw%ties_mode_values.
  destruct (only (mode_values xs)) as [u|] eqn:Hu; [|done].
  apply only_Some in Hu. rewrite Hu in Hv, Hw.
  apply list_elem_of_singleton in Hv, Hw. congruence.
Qed.

Lemma frequency_fmap {B} `{EqDecision B} (f : A → B) `{!Inj (=) (=) f} v xs :
  frequency (f v) (f <$> xs) = frequency v xs.
Proof.
  unfold frequency. induction xs as [|x xs IH]; [done|].
  rewrite fmap_cons, !filter_cons.
  destruct (decide (x = v)) as [->|Hne].
  - rewrite decide_True by done. simpl. by rewrite IH.
  - rewrite decide_False by (intros Heq%(inj f); done). done.
Qed.

Lemma strictly_most_frequent_fmap {B} `{EqDecision B} (f : A → B)
    `{!Inj (=) (=) f} (y : B) xs :
  strictly_most_frequent y (f <$> xs) ↔
  ∃ v, y = f v ∧ strictly_most_frequent v xs.
Proof.
  split.
  - intros [(v & -> & Hv)%list_elem_of_fmap Hstrict]. exists v.
    split; [done|]. split; [done|]. intros w Hw Hne.
    rewrite <- (frequency_fmap f w), <- (frequency_fmap f v).
    apply Hstrict; [by apply list_elem_of_fmap_2|].
    intros Heq%(inj f). done.
  - intros (v & -> & Hv & Hstrict). split; [by apply list_elem_of_fmap_2|].
    intros ? (w & -> & Hw)%list_elem_of_fmap Hne.
    rewrite !frequency_fmap by done. apply Hstrict; [done|]. congruence.
Qed.

Lemma ties_for_most_frequent_fmap {B} `{EqDecision B} (f : A → B)
    `{!Inj (=) (=) f} (y : B) xs :
  ties_for_most_frequent y (f <$> xs) ↔
  ∃ v, y = f v ∧ ties_for_most_frequent v xs.
Proof.
  split.
  - intros [(v & -> & Hv)%list_elem_of_fmap Hmax]. exists v.
    split; [done|]. split; [done|]. intros w Hw.
    rewrite <- (frequency_fmap f w), <- (frequency_fmap f v).
    apply Hmax. by apply list_elem_of_fmap_2.
  - intros (v & -> & Hv & Hmax). split; [by apply list_elem_of_fmap_2|].
    intros ? (w & -> & Hw)%list_elem_of_fmap.
    rewrite !frequency_fmap by done. by apply Hmax.
Qed.

End ModeProperties.

(** The model's count and its selection of cells agree with the
    specification's. *)
Lemma frequency_occurrences (v : scalar) (xs : list scalar) :
  frequency v xs = occurrences v xs.
Proof.
  unfold frequency, occurrences. induction xs as [|x xs IH]; [done|].
  rewrite filter_cons. simpl.
  destruct (decide (x = v)) as [->|Hne].
  - destruct (scalar_eq_dec v v); [|done]. simpl. by rewrite IH.
  - destruct (scalar_eq_dec x v); [done|]. exact IH.
Qed.

Lemma dropna_present {B} (xs : list (option B)) : dropna xs = present xs.
Proof.
  unfold dropna. induction xs as [|[x|] xs IH]; simpl; [done|..].
  - by rewrite <- IH.
  - exact IH.
Qed.

Lemma observed_non_missing (c : cells) : observed c = non_missing c.
Proof. destruct c; simpl; by rewrite ?dropna_present. Qed.

Lemma occurrences_positive (v : scalar) (xs : list scalar) :
  v ∈ xs ↔ (0 < occurrences v xs)%nat.
Proof.
  unfold occurrences. rewrite list_elem_of_In. apply count_occ_In.
Qed.

Lemma another_scalar (v : scalar) : ∃ w : scalar, w ≠ v.
Proof.
  destruct (decide (v = SInt 0)) as [->|Hne].
  - by exists (SInt 1).
  - exists (SInt 0). congruence.
Qed.

Lemma strictly_most_frequent_unique_mode (v : scalar) (xs : list scalar) :
  strictly_most_frequent v xs ↔ unique_mode v xs.
Proof.
  unfold strictly_most_frequent, unique_mode. split.
  - intros [Hv Hstrict] w Hne.
    destruct (decide (w ∈ xs)) as [Hw|Hw].
    + rewrite <- !frequency_occurrences. by apply Hstrict.
    + apply occurrences_positive in Hv.
      assert (occurrences w xs = 0%nat) as ->; [|done].
      destruct (occurrences w xs) eqn:Hocc; [done|].
      destruct Hw. apply occurrences_positive. lia.
  - intros Hmode. split.
    + destruct (another_scalar v) as [w Hne].
      apply occurrences_positive. specialize (Hmode w Hne). lia.
    + intros w _ Hne. rewrite !frequency_occurrences. by apply Hmode.
Qed.

Lemma two_modes_tie (v w : scalar) (xs : list scalar) :
  two_modes v w xs →
  v ≠ w ∧ ties_for_most_frequent v xs ∧ ties_for_most_frequent w xs.
Proof.
  intros (Hne & Hpos & Heq & Hmax). split; [done|].
  unfold ties_for_most_frequent. split.
  - split; [by apply occurrences_positive|].
    intros u _. rewrite !frequency_occurrences. apply Hmax.
  - split; [apply occurrences_positive; lia|].
    intros u _. rewrite !frequency_occurrences, <- Heq. apply Hmax.
Qed.

(** * Properties of stats *)

#[local] Instance SInt_inj : Inj (=) (=) SInt.
Proof. intros x y. congruence. Qed.
#[local] Instance SFloat_Fin_inj : Inj (=) (=) (λ x : Qc, SFloat (Fin x)).
Proof. intros x y. congruence. Qed.

Lemma column_statistics_numeric c :
  numeric c → returns (column_statistics c).
Proof.
  unfold numeric, Series_dtype, column_statistics, returns.
  destruct (values c); simpl; eauto. done.
Qed.

Lemma column_statistics_no_text (xs : list (option string)) c st :
  values c = ObjectCells xs → column_statistics c = Return st →
  dropna xs = [] ∧ mode st = None.
Proof.
  unfold column_statistics. intros ->.
  destruct (dropna xs); [|done]. by intros [= <-].
Qed.

Lemma column_statistics_mode c st v :
  column_statistics c = Return st →
  mode st = Some v ↔ strictly_most_frequent v (observed (values c)).
Proof.
  intros Hst. destruct (values c) as [xs|xs|xs] eqn:Hvalues.
  - unfold column_statistics in Hst. rewrite Hvalues in Hst.
    injection Hst as <-. simpl.
    rewrite only_fmap, fmap_Some, strictly_most_frequent_fmap by apply _.
    split; intros (x & H1 & H2); exists x; split; try done;
      by apply only_mode_values.
  - unfold column_statistics in Hst. rewrite Hvalues in Hst.
    injection Hst as <-. simpl.
    rewrite only_fmap, fmap_Some, strictly_most_frequent_fmap by apply _.
    split; intros (x & H1 & H2); exists x; split; try done;
      by apply only_mode_values.
  - destruct (column_statistics_no_text xs c st Hvalues Hst) as [Hnone ->].
    simpl. rewrite Hnone. split; [done|].
    by intros [?%not_elem_of_nil _].
Qed.

Lemma column_statistics_mode_tie c st v w :
  column_statistics c = Return st →
  v ≠ w →
  ties_for_most_frequent v (observed (values c)) →
  ties_for_most_frequent w (observed (values c)) →
  mode st = None.
Proof.
  intros Hst Hne. destruct (values c) as [xs|xs|xs] eqn:Hvalues.
  - unfold column_statistics in Hst. rewrite Hvalues in Hst.
    injection Hst as <-. simpl.
    rewrite !ties_for_most_frequent_fmap by apply _.
    intros (x & -> & Hx) (y & -> & Hy). rewrite only_fmap.
    rewrite (only_mode_values_tie x y); try done; congruence.
  - unfold column_statistics in Hst. rewrite Hvalues in Hst.
    injection Hst as <-. simpl.
    rewrite !ties_for_most_frequent_fmap by apply _.
    intros (x & -> & Hx) (y & -> & Hy). rewrite only_fmap.
    rewrite (only_mode_values_tie x y); try done; congruence.
  - intros _ _. by destruct (column_statistics_no_text xs c st Hvalues Hst).
Qed.

Lemma same_name_eq (dat : DataFrame) (c c' : Series) :
  NoDup (labels dat) → c ∈ columns dat → c' ∈ columns dat →
  name c = name c' → c = c'.
Proof.
  intros Hnd [i Hi]%list_elem_of_lookup [j Hj]%list_elem_of_lookup Hname.
  assert (i = j) as ->.
  { apply (NoDup_lookup _ i j (name c) Hnd); unfold labels;
      rewrite list_lookup_fmap; [by rewrite Hi|by rewrite Hj, Hname]. }
  congruence.
Qed.

Lemma getitem_column_unique (dat : DataFrame) (c : Series) :
  NoDup (labels dat) → c ∈ columns dat →
  getitem_column dat (name c) = Return c.
Proof.
  intros Hnd Hc. unfold getitem_column.
  destruct (list_find_elem_of (λ c', name c' = name c) (columns dat) c)
    as [[i c'] Hfind]; [done..|].
  rewrite Hfind. f_equal.
  apply list_find_Some in Hfind as (Hi & Hname & _).
  apply (same_name_eq dat); [done| |done..].
  apply list_elem_of_lookup. eauto.
Qed.

Lemma stats_loop_spec (dat : DataFrame) :
  NoDup (labels dat) → Forall numeric (columns dat) →
  ∀ cs acc, (∀ c, c ∈ cs → c ∈ columns dat) →
  ∃ m, stats_loop dat (name <$> cs) acc = Return m ∧
    (∀ c, c ∈ cs →
       ∃ st, column_statistics c = Return st ∧ m !! name c = Some st) ∧
    (∀ k, k ∉ name <$> cs → m !! k = acc !! k).
Proof.
  intros Hnd Hnum. induction cs as [|c cs IH]; intros acc Hsub.
  { exists acc. split; [done|]. split; [|done]. by intros c ?%not_elem_of_nil. }
  assert (c ∈ columns dat) as Hc by (apply Hsub; left).
  destruct (column_statistics_numeric c) as [st Hst].
  { by eapply Forall_forall in Hnum. }
  destruct (IH (<[name c := st]> acc)) as (m & Hm & Hin & Hout).
  { intros c' Hc'. apply Hsub. by right. }
  exists m. split; [|split].
  - rewrite fmap_cons. simpl. rewrite getitem_column_unique by done. simpl.
    rewrite Hst. simpl. exact Hm.
  - intros c' Hc'.
    destruct (decide (name c' ∈ name <$> cs)) as [Hname|Hname].
    + apply list_elem_of_fmap in Hname as (c'' & Hname & Hc'').
      assert (c' = c'') as ->; [|by apply Hin].
      apply (same_name_eq dat); try done; apply Hsub; [done|by right].
    + apply elem_of_cons in Hc' as [->|Hc'].
      * exists st. split; [done|]. rewrite Hout by done.
        apply lookup_insert_eq.
      * destruct Hname. by apply list_elem_of_fmap_2.
  - intros k Hk. rewrite fmap_cons in Hk.
    apply not_elem_of_cons in Hk as [Hne Hk].
    rewrite Hout by done. by apply lookup_insert_ne.
Qed.

Lemma drop_identifiers (frame : DataFrame) :
  "key" ∈ labels frame → "input" ∈ labels frame →
  drop ["key"; "input"] frame =
  Return {| columns := non_identifier frame; nrows := nrows frame |}.
Proof.
  intros Hkey Hinput. unfold drop.
  rewrite bool_decide_eq_true_2 by (repeat constructor; done).
  do 2 f_equal. apply list_filter_iff. intros c.
  unfold not_identifier, identifier_columns.
  by rewrite bool_decide_eq_true.
Qed.

(** On a frame with distinct labels, both identifier columns and numeric
    columns besides, [stats] returns a dictionary that holds the statistics
    of every remaining column under its label. *)
Lemma stats_spec (frame : DataFrame) :
  NoDup (labels frame) →
  "key" ∈ labels frame → "input" ∈ labels frame →
  Forall numeric (non_identifier frame) →
  ∃ m, stats frame = Return m ∧
    ∀ c, c ∈ non_identifier frame →
      ∃ st, column_statistics c = Return st ∧ m !! name c = Some st.
Proof.
  intros Hnd Hkey Hinput Hnum. unfold stats.
  rewrite drop_identifiers by done. simpl.
  set (dat := {| columns := non_identifier frame; nrows := nrows frame |}).
  destruct (stats_loop_spec dat) with (cs := columns dat) (acc := ∅ : gmap string column_stats)
    as (m & Hm & Hin & _); try done.
  - unfold labels, dat. simpl. eapply sublist_NoDup; [exact Hnd|].
    apply fmap_sublist, sublist_filter.
  - exists m. split; [exact Hm|]. exact Hin.
Qed.

Lemma frame_of_labels rows data :
  NoDup (labels (frame_of rows data)) ∧
  "key" ∈ labels (frame_of rows data) ∧
  "input" ∈ labels (frame_of rows data).
Proof.
  unfold labels. simpl. split; [|split].
  - apply (bool_decide_unpack _). by vm_compute.
  - left.
  - right. left.
Qed.

(** C4: every non-identifier column has its entry in the result of
    [stats], and the mode in it is the value that occurs strictly more
    often than every other value, when there is one; it is [None] as soon
    as two different values tie for the highest frequency.  For the values
    1, 1, 2, 2 the mode is [None], for 1, 1, 2 it is 1, and missing cells
    do not count: for 1.5, NaN, 1.5, 2.5 it is 1.5. *)
Theorem stats_mode :
  (∀ frame : DataFrame,
     NoDup (labels frame) →
     "key" ∈ labels frame → "input" ∈ labels frame →
     Forall numeric (non_identifier frame) →
     ∃ m, stats frame = Return m ∧
       ∀ c, c ∈ non_identifier frame →
         ∃ st, m !! name c = Some st ∧
           (∀ v, mode st = Some v ↔
                 unique_mode v (non_missing (values c))) ∧
           (∀ v w, two_modes v w (non_missing (values c)) →
                   mode st = None)) ∧
  (m ← stats tied_frame; mret (mode <$> m !! "value")) = Return (Some None) ∧
  (m ← stats single_mode_frame; mret (mode <$> m !! "value"))
    = Return (Some (Some (SInt 1))) ∧
  (m ← stats missing_mode_frame; mret (mode <$> m !! "value"))
    = Return (Some (Some (SFloat (Fin (Q2Qc (3 # 2)))))).
Proof.
  split; [|by vm_compute].
  intros frame Hnd Hkey Hinput Hnum.
  destruct (stats_spec frame) as (m & Hm & Hcols); try done.
  exists m. split; [done|]. intros c Hc.
  destruct (Hcols c Hc) as (st & Hst & Hlookup).
  exists st. split; [done|]. rewrite <- observed_non_missing. split.
  - intros v. rewrite <- strictly_most_frequent_unique_mode.
    by apply column_statistics_mode.
  - intros v w (Hne & Hv & Hw)%two_modes_tie.
    by apply (column_statistics_mode_tie c st v w).
Qed.

Lemma stats_mode_witness :
  ∃ m, stats single_mode_frame = Return m ∧
    ∀ c, c ∈ non_identifier single_mode_frame →
      ∃ st, m !! name c = Some st ∧
        (∀ v, mode st = Some v ↔
              unique_mode v (non_missing (values c))) ∧
        (∀ v w, two_modes v w (non_missing (values c)) → mode st = None).
Proof.
  apply (proj1 stats_mode single_mode_frame).
  - apply (bool_decide_unpack _). vm_compute. exact I.
  - apply (bool_decide_unpack _). vm_compute. exact I.
  - apply (bool_decide_unpack _). vm_compute. exact I.
  - repeat constructor. discriminate.
Defined.

(** C10: on a frame that lacks the column [key] or the column [input],
    [stats] raises, the [KeyError] of [drop], and returns no statistics. *)
Theorem stats_requires_identifiers (frame : DataFrame) :
  "key" ∉ labels frame ∨ "input" ∉ labels frame →
  stats frame = Raise KeyError.
Proof.
  intros Hmissing. unfold stats, drop.
  rewrite bool_decide_eq_false_2; [done|].
  intros Hall. rewrite !Forall_cons in Hall.
  destruct Hall as (Hkey & Hinput & _). by destruct Hmissing.
Qed.

Lemma stats_requires_identifiers_witness :
  stats no_key_frame = Raise KeyError.
Proof.
  apply stats_requires_identifiers. left.
  apply (bool_decide_unpack _). vm_compute. exact I.
Defined.

(** C6, as stated, fails: on a frame whose only data column holds no value,
    [stats] does not raise; it returns the statistics of that column, all
    of them undefined. *)
Lemma stats_all_null_returns :
  observed (FloatCells [None; None]) = [] ∧
  stats all_null_frame = Return (<["value" := undefined_stats]> ∅) ∧
  ¬ raises (stats all_null_frame).
Proof.
  split; [reflexivity|]. split; [by vm_compute|].
  intros [e He]. vm_compute in He. discriminate He.
Qed.

(** C6, amended: for a non-identifier column without any non-missing
    value, [stats] returns, and the entry of the column has NaN for the
    mean, the minimum, the maximum and the standard deviation, and [None]
    for the mode. *)
Theorem stats_empty_column (frame : DataFrame) (c : Series) :
  NoDup (labels frame) →
  "key" ∈ labels frame → "input" ∈ labels frame →
  Forall numeric (non_identifier frame) →
  c ∈ non_identifier frame →
  observed (values c) = [] →
  ∃ m, stats frame = Return m ∧ m !! name c = Some undefined_stats.
Proof.
  intros Hnd Hkey Hinput Hnum Hc Hempty.
  destruct (stats_spec frame) as (m & Hm & Hcols); try done.
  exists m. split; [done|].
  destruct (Hcols c Hc) as (st & Hst & ->). f_equal.
  unfold column_statistics, observed in *.
  destruct (values c) as [xs|xs|xs];
    apply fmap_nil_inv in Hempty; rewrite ?Hempty in Hst; subst;
    by injection Hst as <-.
Qed.

Lemma stats_empty_column_witness :
  ∃ m, stats all_null_frame = Return m ∧ m !! "value" = Some undefined_stats.
Proof.
  apply (stats_empty_column all_null_frame
           {| name := "value"; values := FloatCells [None; None] |}).
  - apply (bool_decide_unpack _). vm_compute. exact I.
  - apply (bool_decide_unpack _). vm_compute. exact I.
  - apply (bool_decide_unpack _). vm_compute. exact I.
  - repeat constructor. discriminate.
  - left.
  - reflexivity.
Defined.

(** * Properties of get_file_sizes *)

Lemma kilobytes_compare (bytes : Z) :
  ((Qc_of_Z bytes / Qc_of_Z 1024)%Qc ?= Q2Qc 0)%Qc = (bytes ?= 0)%Z.
Proof.
  unfold Qccompare, Qcdiv, Qcmult, Qcinv, Qc_of_Z. simpl.
  rewrite <- Qred_compare, !Qred_correct.
  unfold Qcompare, Qmult, Qinv, inject_Z. simpl.
  by rewrite !Z.mul_1_r.
Qed.

Lemma float64_div_zero_rows (bytes : Z) :
  float64_div_int (int64_div_int bytes 1024) 0 = quotient_by_zero bytes.
Proof.
  unfold int64_div_int, float64_div_int, quotient_by_zero.
  rewrite bool_decide_eq_false_2 by lia.
  rewrite bool_decide_eq_true_2 by done.
  by rewrite kilobytes_compare.
Qed.

(** C7, as stated, fails: with an input frame without rows the size
    accounting raises nothing; the average row size of the input is
    infinite. *)
Lemma get_file_sizes_zero_rows_returns :
  nrows empty_input_frame = 0%nat ∧
  (sizes ← get_file_sizes fixed_width_memory_usage
              empty_input_frame one_float_frame;
   mret (avg_input_size sizes)) = Return PInf ∧
  ¬ raises (get_file_sizes fixed_width_memory_usage
              empty_input_frame one_float_frame).
Proof.
  split; [reflexivity|]. split; [by vm_compute|].
  intros [e He]. discriminate He.
Qed.

(** C7, amended: when a frame has no rows the size accounting still
    returns; the division is a [float64] division, and the average row size
    of that frame is an infinity, or NaN when the frame takes no bytes. *)
Theorem get_file_sizes_zero_rows
    (memory_usage : DataFrame → list Z) (input_df output_df : DataFrame) :
  nrows input_df = 0%nat ∨ nrows output_df = 0%nat →
  ∃ sizes, get_file_sizes memory_usage input_df output_df = Return sizes ∧
    (nrows input_df = 0%nat →
       avg_input_size sizes =
       quotient_by_zero (total_bytes memory_usage input_df)) ∧
    (nrows output_df = 0%nat →
       avg_output_size sizes =
       quotient_by_zero (total_bytes memory_usage output_df)).
Proof.
  intros _. eexists. split; [reflexivity|]. simpl.
  split; intros ->; apply float64_div_zero_rows.
Qed.

Lemma get_file_sizes_zero_rows_witness :
  ∃ sizes, get_file_sizes fixed_width_memory_usage
             empty_input_frame one_float_frame = Return sizes ∧
    (nrows empty_input_frame = 0%nat →
       avg_input_size sizes =
       quotient_by_zero (total_bytes fixed_width_memory_usage
                           empty_input_frame)) ∧
    (nrows one_float_frame = 0%nat →
       avg_output_size sizes =
       quotient_by_zero (total_bytes fixed_width_memory_usage
                           one_float_frame)).
Proof.
  apply (get_file_sizes_zero_rows fixed_width_memory_usage
           empty_input_frame one_float_frame).
  left. reflexivity.
Defined.

(** * Further properties of check_types *)

Lemma check_types_loop_bounds md ds : ∀ count n,
  check_types_loop md ds count = Return n →
  (count ≤ n ≤ count + Z.of_nat (length ds))%Z.
Proof.
  induction ds as [|d ds IH]; intros count n; simpl.
  { intros [= <-]. lia. }
  destruct (dict_getitem typeDict (dtype_str d)); simpl; [|done].
  destruct (dict_getitem md "Output Type"); simpl; [|done].
  destruct (getitem0 _); simpl; [|done].
  intros H%IH. destruct (str_ne _ _); lia.
Qed.

(** X1: a text column among the non-identifier columns makes the validator
    raise, whatever the metadata says. *)
Theorem check_types_text_column_raises
    (df : DataFrame) (md : gmap string pyval) (c : Series) :
  c ∈ non_identifier df → Series_dtype c = object →
  raises (check_types df md).
Proof.
  intros Hc Hobject.
  destruct (check_types df md) as [r|e] eqn:Hcheck; [|by exists e].
  apply check_types_inv in Hcheck as (count & Hloop & _).
  apply check_types_loop_returns in Hloop.
  rewrite Forall_forall in Hloop. by destruct (Hloop c Hc).
Qed.

Lemma check_types_text_column_raises_witness :
  raises (check_types text_frame float_list_single_metadata).
Proof.
  apply (check_types_text_column_raises text_frame float_list_single_metadata
           {| name := "value";
              values := ObjectCells [Some "active"; Some "inactive"] |}).
  - vm_compute. left.
  - reflexivity.
Defined.

(** X2: the number of mismatches lies between 0 and the number of
    non-identifier columns. *)
Theorem check_types_count_bounds
    (df : DataFrame) (md : gmap string pyval) (r : ValidationResult) :
  check_types df md = Return r →
  (0 ≤ mismatched_types r ≤ Z.of_nat (length (non_identifier df)))%Z.
Proof.
  intros (count & Hloop & <- & _)%check_types_inv.
  apply check_types_loop_bounds in Hloop.
  rewrite dtypesLst_length in Hloop. lia.
Qed.

Lemma check_types_count_bounds_witness :
  (0 ≤ mismatched_types {| mismatched_types := 1; correct_shape := false |}
     ≤ Z.of_nat (length (non_identifier mixed_frame)))%Z.
Proof.
  apply (check_types_count_bounds mixed_frame float_list_single_metadata).
  vm_compute. reflexivity.
Defined.

Lemma label_differs_from_character (d : dtype) (label : string) (c : ascii) :
  canonical_label d = Some label →
  str_ne label (PStr (String c EmptyString)) = true.
Proof.
  destruct d; intros [= <-]; unfold str_ne;
    apply negb_true_iff, String.eqb_neq; intros Heq; inversion Heq.
Qed.

(** X3: when the output type is declared as a string, every non-identifier
    column counts as a mismatch: its label is compared with one
    character. *)
Theorem check_types_string_output_type
    (df : DataFrame) (md : gmap string pyval) (declared : string)
    (r : ValidationResult) :
  md !! "Output Type" = Some (PStr declared) →
  check_types df md = Return r →
  mismatched_types r = Z.of_nat (length (non_identifier df)).
Proof.
  intros Hot (count & Hloop & <- & _)%check_types_inv.
  unfold dtypesLst_of in Hloop. fold (non_identifier df) in Hloop.
  pose proof (check_types_loop_returns _ _ _ _ Hloop) as Hnum.
  destruct declared as [|c rest].
  - destruct (non_identifier df) as [|col cols]; simpl in Hloop.
    + by injection Hloop as <-.
    + rewrite typeDict_lookup in Hloop.
      destruct (canonical_label _); simpl in Hloop; [|done].
      unfold dict_getitem in Hloop. by rewrite Hot in Hloop.
  - rewrite (check_types_loop_numeric md (PStr (String c rest))
               (PStr (String c EmptyString))) in Hloop by done.
    injection Hloop as <-. rewrite Z.add_0_l. do 2 f_equal.
    clear Hot. induction Hnum as [|col cols Hcol _ IH]; [done|].
    rewrite filter_cons, decide_True; [by rewrite IH|].
    unfold mismatches, numeric in *.
    destruct (canonical_label (Series_dtype col)) as [label|] eqn:Hlabel;
      [|done].
    by eapply label_differs_from_character.
Qed.

Lemma check_types_string_output_type_witness :
  mismatched_types {| mismatched_types := 2; correct_shape := false |} =
  Z.of_nat (length (non_identifier mixed_frame)).
Proof.
  apply (check_types_string_output_type mixed_frame
           (<["Output Type" := PStr "Int"]>
              (<["Output Shape" := PStr "Single"]> ∅)) "Int").
  - reflexivity.
  - vm_compute. reflexivity.
Defined.

(** X4: with at least one non-identifier column, metadata without
    ["Output Type"] gives [KeyError]; with numeric columns, an empty output
    type gives [IndexError], and a missing ["Output Shape"] gives
    [KeyError]. *)
Theorem check_types_metadata_errors
    (df : DataFrame) (md : gmap string pyval) :
  (1 ≤ length (non_identifier df))%nat →
  (md !! "Output Type" = None → check_types df md = Raise KeyError) ∧
  (Forall numeric (non_identifier df) →
   md !! "Output Type" = Some (PList []) ∨
   md !! "Output Type" = Some (PStr "") →
   check_types df md = Raise IndexError) ∧
  (Forall numeric (non_identifier df) →
   (∃ ot first, md !! "Output Type" = Some ot ∧ getitem0 ot = Return first) →
   md !! "Output Shape" = None →
   check_types df md = Raise KeyError).
Proof.
  intros Hn. unfold check_types. rewrite dtypesLst_length.
  unfold dtypesLst_of. fold (non_identifier df).
  destruct (non_identifier df) as [|c cs] eqn:Hcols; [simpl in Hn; lia|].
  split; [|split].
  - intros Hot. simpl. rewrite typeDict_lookup.
    destruct (canonical_label _); simpl; [|done].
    unfold dict_getitem. by rewrite Hot.
  - intros Hnum Hot. apply Forall_cons in Hnum as [Hc _]. simpl.
    rewrite typeDict_lookup. unfold numeric in Hc.
    destruct (canonical_label _) eqn:Hl; [|by destruct (Series_dtype c)].
    simpl. unfold dict_getitem. by destruct Hot as [-> | ->].
  - intros Hnum (ot & first & Hot & Hfirst) Hshape.
    rewrite (check_types_loop_numeric md ot first) by done. simpl.
    unfold shape_differs, dict_getitem. rewrite Hshape.
    destruct cs; simpl; done.
Qed.

Lemma check_types_metadata_errors_witness :
  check_types one_float_frame ∅ = Raise KeyError.
Proof.
  assert (1 ≤ length (non_identifier one_float_frame))%nat as Hone
    by (vm_compute; lia).
  apply (proj1 (check_types_metadata_errors one_float_frame ∅ Hone)).
  reflexivity.
Defined.

(** * Further properties of stats *)

Lemma non_identifier_labels (frame : DataFrame) (k : string) :
  k ∈ name <$> non_identifier frame ↔
  k ∈ labels frame ∧ k ≠ "key" ∧ k ≠ "input".
Proof.
  unfold non_identifier, labels. rewrite !list_elem_of_fmap. split.
  - intros (c & -> & [Hid Hc]%list_elem_of_filter).
    unfold not_identifier, identifier_columns in Hid.
    apply bool_decide_eq_true in Hid.
    rewrite !not_elem_of_cons in Hid. destruct Hid as (? & ? & _).
    split; [by exists c|done].
  - intros ((c & -> & Hc) & Hkey & Hinput). exists c. split; [done|].
    apply list_elem_of_filter. split; [|done].
    unfold not_identifier, identifier_columns. apply bool_decide_eq_true.
    rewrite !not_elem_of_cons. split_and!; [done..|apply not_elem_of_nil].
Qed.

(** X5: the dictionary that [stats] returns has one entry for each column
    other than [key] and [input], and no other entry. *)
Theorem stats_keys (frame : DataFrame) :
  NoDup (labels frame) →
  "key" ∈ labels frame → "input" ∈ labels frame →
  Forall numeric (non_identifier frame) →
  ∃ m, stats frame = Return m ∧
    ∀ k, is_Some (m !! k) ↔ k ∈ labels frame ∧ k ≠ "key" ∧ k ≠ "input".
Proof.
  intros Hnd Hkey Hinput Hnum. unfold stats.
  rewrite drop_identifiers by done. simpl.
  set (dat := {| columns := non_identifier frame; nrows := nrows frame |}).
  destruct (stats_loop_spec dat) with (cs := columns dat)
    (acc := ∅ : gmap string column_stats) as (m & Hm & Hin & Hout); try done.
  { unfold labels, dat. simpl. eapply sublist_NoDup; [exact Hnd|].
    apply fmap_sublist, sublist_filter. }
  exists m. split; [exact Hm|]. intros k.
  rewrite <- non_identifier_labels. split.
  - intros Hsome. destruct (decide (k ∈ name <$> non_identifier frame));
      [done|]. rewrite Hout, lookup_empty in Hsome by done.
    by destruct Hsome.
  - intros (c & -> & Hc)%list_elem_of_fmap.
    destruct (Hin c Hc) as (st & _ & ->). by eexists.
Qed.

Lemma stats_keys_witness :
  ∃ m, stats single_mode_frame = Return m ∧
    ∀ k, is_Some (m !! k) ↔
         k ∈ labels single_mode_frame ∧ k ≠ "key" ∧ k ≠ "input".
Proof.
  apply (stats_keys single_mode_frame).
  - apply (bool_decide_unpack _). vm_compute. exact I.
  - apply (bool_decide_unpack _). vm_compute. exact I.
  - apply (bool_decide_unpack _). vm_compute. exact I.
  - repeat constructor. discriminate.
Defined.

Lemma stats_loop_text (dat : DataFrame) :
  NoDup (labels dat) →
  ∀ cs acc, (∀ c, c ∈ cs → c ∈ columns dat) →
  Exists (λ c, ∃ xs, values c = ObjectCells xs ∧ dropna xs ≠ []) cs →
  stats_loop dat (name <$> cs) acc = Raise TypeError.
Proof.
  intros Hnd. induction cs as [|c cs IH]; intros acc Hsub Htext.
  { by apply Exists_nil in Htext. }
  rewrite fmap_cons. simpl.
  rewrite getitem_column_unique by (done || apply Hsub; left). simpl.
  assert (∀ c', c' ∈ cs → c' ∈ columns dat) as Hsub'
    by (intros c' Hc'; apply Hsub; by right).
  apply Exists_cons in Htext. unfold column_statistics.
  destruct (values c) as [xs|xs|xs] eqn:Hvalues; simpl.
  - destruct Htext as [(ys & [=] & _)|Htext]. by apply IH.
  - destruct Htext as [(ys & [=] & _)|Htext]. by apply IH.
  - destruct (dropna xs) eqn:Hxs; simpl; [|done].
    destruct Htext as [(ys & [= <-] & Hys)|Htext]; [done|]. by apply IH.
Qed.

(** X6: a text column that holds at least one value, next to the
    identifier columns, makes [stats] raise [TypeError]: no dictionary is
    returned, not even for the numeric columns. *)
Theorem stats_text_column_raises (frame : DataFrame) (c : Series) :
  NoDup (labels frame) →
  "key" ∈ labels frame → "input" ∈ labels frame →
  c ∈ non_identifier frame → Series_dtype c = object →
  non_missing (values c) ≠ [] →
  stats frame = Raise TypeError.
Proof.
  intros Hnd Hkey Hinput Hc Htext Hvalue. unfold stats.
  rewrite drop_identifiers by done. simpl.
  apply stats_loop_text; [| done |].
  - unfold labels. simpl. eapply sublist_NoDup; [exact Hnd|].
    apply fmap_sublist, sublist_filter.
  - apply Exists_exists. exists c. split; [done|].
    unfold Series_dtype in Htext.
    destruct (values c) as [xs|xs|xs]; try done.
    exists xs. split; [done|]. simpl in Hvalue.
    rewrite dropna_present. by intros Hnone; rewrite Hnone in Hvalue.
Qed.

Lemma stats_text_column_raises_witness :
  stats text_frame = Raise TypeError.
Proof.
  apply (stats_text_column_raises text_frame
           {| name := "value";
              values := ObjectCells [Some "active"; Some "inactive"] |}).
  - apply (bool_decide_unpack _). vm_compute. exact I.
  - apply (bool_decide_unpack _). vm_compute. exact I.
  - apply (bool_decide_unpack _). vm_compute. exact I.
  - vm_compute. left.
  - reflexivity.
  - discriminate.
Defined.

(** A file with a header only: every column is an empty text column, and
    [stats] returns the statistics of no values. *)
Example stats_header_only :
  stats header_only_frame = Return (<["value" := undefined_stats]> ∅).
Proof. by vm_compute. Qed.

Lemma mode_values_singleton {A} `{EqDecision A} (x : A) :
  only (mode_values [x]) = Some x.
Proof.
  apply only_mode_values. split; [left|].
  intros w ->%list_elem_of_singleton Hne. done.
Qed.

(** X7: for a column with exactly one non-missing value, as in a run on a
    single input, the mode, the minimum and the maximum are that value and
    the standard deviation is NaN. *)
Theorem stats_single_value (frame : DataFrame) (c : Series) (v : scalar) :
  NoDup (labels frame) →
  "key" ∈ labels frame → "input" ∈ labels frame →
  Forall numeric (non_identifier frame) →
  c ∈ non_identifier frame →
  non_missing (values c) = [v] →
  ∃ m st, stats frame = Return m ∧ m !! name c = Some st ∧
    mode st = Some v ∧ min st = v ∧ max st = v ∧ std st = NaN.
Proof.
  intros Hnd Hkey Hinput Hnum Hc Hone.
  destruct (stats_spec frame) as (m & Hm & Hcols); try done.
  destruct (Hcols c Hc) as (st & Hst & Hlookup).
  clear Hcols. unfold column_statistics in Hst.
  rewrite <- observed_non_missing in Hone. unfold observed in Hone.
  destruct (values c) as [xs|xs|xs] eqn:Hvalues.
  - injection Hst as <-.
    destruct (dropna xs) as [|x [|y rest]]; try discriminate Hone.
    injection Hone as <-.
    exists m. eexists. split_and!; try done.
    cbn [mode]. by rewrite only_fmap, mode_values_singleton.
  - injection Hst as <-.
    destruct xs as [|z [|y rest]]; try discriminate Hone.
    injection Hone as <-.
    exists m. eexists. split_and!; try done.
    cbn [mode]. by rewrite only_fmap, mode_values_singleton.
  - eapply Forall_forall in Hnum; [|exact Hc].
    unfold numeric, Series_dtype in Hnum. by rewrite Hvalues in Hnum.
Qed.

Lemma stats_single_value_witness :
  ∃ m st, stats single_row_frame = Return m ∧
    m !! "value" = Some st ∧
    mode st = Some (SFloat (Fin (Q2Qc (7 # 2)))) ∧
    min st = SFloat (Fin (Q2Qc (7 # 2))) ∧
    max st = SFloat (Fin (Q2Qc (7 # 2))) ∧
    std st = NaN.
Proof.
  apply (stats_single_value single_row_frame
           {| name := "value"; values := FloatCells [Some (Q2Qc (7 # 2))] |}).
  - apply (bool_decide_unpack _). vm_compute. exact I.
  - apply (bool_decide_unpack _). vm_compute. exact I.
  - apply (bool_decide_unpack _). vm_compute. exact I.
  - repeat constructor. discriminate.
  - vm_compute. left.
  - reflexivity.
Defined.

(** * Order of the statistics *)

Section Selection.
(** A fold that keeps one of its two arguments, the smaller for [le]. *)
Context {A : Type} (le : A → A → Prop) (pick : A → A → A).
Hypothesis le_refl : ∀ x, le x x.
Hypothesis le_trans : ∀ x y z, le x y → le y z → le x z.
Hypothesis pick_either : ∀ x y, pick x y = x ∨ pick x y = y.
Hypothesis pick_le_l : ∀ x y, le (pick x y) x.
Hypothesis pick_le_r : ∀ x y, le (pick x y) y.

Lemma foldr_pick (x : A) (rest : list A) :
  foldr pick x rest ∈ x :: rest ∧
  ∀ y, y ∈ x :: rest → le (foldr pick x rest) y.
Proof.
  induction rest as [|a rest [IHin IHle]]; simpl.
  { split; [left|]. by intros y ->%list_elem_of_singleton. }
  split.
  - destruct (pick_either a (foldr pick x rest)) as [-> | ->].
    + right. left.
    + apply elem_of_cons in IHin as [-> | ?]; [left|by do 2 right].
  - intros y Hy.
    assert (y = a ∨ y ∈ x :: rest) as [-> | Hy'].
    { rewrite !elem_of_cons in Hy. rewrite elem_of_cons. tauto. }
    + apply pick_le_l.
    + eapply le_trans; [apply pick_le_r|by apply IHle].
Qed.
End Selection.

Lemma foldr_Qc_min (x : Qc) (rest : list Qc) :
  foldr Qc_min x rest ∈ x :: rest ∧
  ∀ y, y ∈ x :: rest → (foldr Qc_min x rest <= y)%Qc.
Proof.
  apply (foldr_pick Qcle Qc_min); unfold Qc_min.
  - apply Qcle_refl.
  - apply Qcle_trans.
  - intros a b. destruct (Qclt_le_dec b a); auto.
  - intros a b. destruct (Qclt_le_dec b a);
      [by apply Qclt_le_weak|apply Qcle_refl].
  - intros a b. destruct (Qclt_le_dec b a); [apply Qcle_refl|done].
Qed.

Lemma foldr_Qc_max (x : Qc) (rest : list Qc) :
  foldr Qc_max x rest ∈ x :: rest ∧
  ∀ y, y ∈ x :: rest → (y <= foldr Qc_max x rest)%Qc.
Proof.
  apply (foldr_pick (flip Qcle) Qc_max); unfold Qc_max, flip.
  - apply Qcle_refl.
  - intros a b c ? ?. by apply Qcle_trans with b.
  - intros a b. destruct (Qclt_le_dec a b); auto.
  - intros a b. destruct (Qclt_le_dec a b);
      [by apply Qclt_le_weak|apply Qcle_refl].
  - intros a b. destruct (Qclt_le_dec a b); [apply Qcle_refl|done].
Qed.

Lemma foldr_Z_min (x : Z) (rest : list Z) :
  foldr Z.min x rest ∈ x :: rest ∧
  ∀ y, y ∈ x :: rest → (foldr Z.min x rest ≤ y)%Z.
Proof.
  apply (foldr_pick Z.le Z.min); intros; lia.
Qed.

Lemma foldr_Z_max (x : Z) (rest : list Z) :
  foldr Z.max x rest ∈ x :: rest ∧
  ∀ y, y ∈ x :: rest → (y ≤ foldr Z.max x rest)%Z.
Proof.
  apply (foldr_pick (flip Z.le) Z.max); unfold flip; intros; lia.
Qed.

(** The least and the greatest of the values of a column that has some. *)
Lemma column_statistics_order (c : Series) (st : column_stats) :
  column_statistics c = Return st →
  numeric c →
  observed (values c) ≠ [] →
  min st ∈ observed (values c) ∧ max st ∈ observed (values c) ∧
  ∀ v, v ∈ observed (values c) →
       scalar_le (min st) v ∧ scalar_le v (max st).
Proof.
  unfold column_statistics, observed, numeric, Series_dtype.
  destruct (values c) as [xs|xs|xs]; [| |done]; intros [= <-] _ Hne.
  - destruct (dropna xs) as [|x rest] eqn:Hxs; [done|].
    destruct (foldr_Qc_min x rest) as [Hlo_in Hlo].
    destruct (foldr_Qc_max x rest) as [Hhi_in Hhi].
    cbn [min max nanmin nanmax].
    split; [by apply (list_elem_of_fmap_2 (λ q, SFloat (Fin q)))|].
    split; [by apply (list_elem_of_fmap_2 (λ q, SFloat (Fin q)))|].
    intros v (y & -> & Hy)%list_elem_of_fmap. simpl. auto.
  - destruct xs as [|x rest]; [done|].
    destruct (foldr_Z_min x rest) as [Hlo_in Hlo].
    destruct (foldr_Z_max x rest) as [Hhi_in Hhi].
    cbn [min max int_min int_max].
    split; [by apply list_elem_of_fmap_2|].
    split; [by apply list_elem_of_fmap_2|].
    intros v (y & -> & Hy)%list_elem_of_fmap. simpl. auto.
Qed.

(** X8: for a column with at least one non-missing value, the minimum and
    the maximum are values of the column, and they bound all its values. *)
Theorem stats_min_max (frame : DataFrame) (c : Series) :
  NoDup (labels frame) →
  "key" ∈ labels frame → "input" ∈ labels frame →
  Forall numeric (non_identifier frame) →
  c ∈ non_identifier frame →
  non_missing (values c) ≠ [] →
  ∃ m st, stats frame = Return m ∧ m !! name c = Some st ∧
    min st ∈ non_missing (values c) ∧ max st ∈ non_missing (values c) ∧
    ∀ v, v ∈ non_missing (values c) →
         scalar_le (min st) v ∧ scalar_le v (max st).
Proof.
  intros Hnd Hkey Hinput Hnum Hc Hne.
  destruct (stats_spec frame) as (m & Hm & Hcols); try done.
  destruct (Hcols c Hc) as (st & Hst & Hlookup).
  exists m, st. split; [done|]. split; [done|].
  rewrite <- observed_non_missing in *.
  apply column_statistics_order; try done.
  by eapply Forall_forall in Hnum.
Qed.

Lemma stats_min_max_witness :
  ∃ m st, stats missing_mode_frame = Return m ∧ m !! "value" = Some st ∧
    min st ∈ non_missing (FloatCells [Some (Q2Qc (3 # 2)); None;
                                      Some (Q2Qc (3 # 2));
                                      Some (Q2Qc (5 # 2))]) ∧
    max st ∈ non_missing (FloatCells [Some (Q2Qc (3 # 2)); None;
                                      Some (Q2Qc (3 # 2));
                                      Some (Q2Qc (5 # 2))]) ∧
    ∀ v, v ∈ non_missing (FloatCells [Some (Q2Qc (3 # 2)); None;
                                      Some (Q2Qc (3 # 2));
                                      Some (Q2Qc (5 # 2))]) →
         scalar_le (min st) v ∧ scalar_le v (max st).
Proof.
  apply (stats_min_max missing_mode_frame
           {| name := "value";
              values := FloatCells [Some (Q2Qc (3 # 2)); None;
                                    Some (Q2Qc (3 # 2));
                                    Some (Q2Qc (5 # 2))] |}).
  - apply (bool_decide_unpack _). vm_compute. exact I.
  - apply (bool_decide_unpack _). vm_compute. exact I.
  - apply (bool_decide_unpack _). vm_compute. exact I.
  - repeat constructor. discriminate.
  - vm_compute. left.
  - discriminate.
Defined.

(** The least and the greatest of 1.5, NaN, 1.5, 2.5. *)
Example stats_min_max_missing :
  (m ← stats missing_mode_frame; mret (min <$> m !! "value", max <$> m !! "value"))
  = Return (Some (SFloat (Fin (Q2Qc (3 # 2)))),
            Some (SFloat (Fin (Q2Qc (5 # 2))))).
Proof. by vm_compute. Qed.

(** * Further properties of the session log *)

(** X10: a write never raises, never creates or removes a path, and leaves
    every path other than the session file as it was. *)
Theorem write_persistent_file_keeps_paths
    (path contents : string) (fs : gmap string node) :
  ∃ fs', write_persistent_file path contents fs = Return fs' ∧
    dom fs' = dom fs ∧
    isfile fs' path = isfile fs path ∧
    ∀ other, other ≠ path → fs' !! other = fs !! other.
Proof.
  destruct (isfile fs path) eqn:Hfile.
  - unfold isfile in Hfile.
    destruct (fs !! path) as [[old|]|] eqn:Hpath; try done.
    rewrite (write_present path contents old) by done.
    eexists. split; [done|]. split; [|split].
    + apply dom_insert_lookup_L. by rewrite Hpath.
    + unfold isfile. by rewrite lookup_insert_eq.
    + intros other Hother. by rewrite lookup_insert_ne.
  - rewrite write_absent by done. by exists fs.
Qed.

(** X11: opening a session on a directory raises [IsADirectoryError];
    otherwise it starts the log afresh: whatever an earlier session wrote is
    gone. *)
Theorem open_persistent_file_resets
    (path : string) (fs : gmap string node) :
  (fs !! path = Some Directory →
   ∀ model_id, open_persistent_file path model_id fs
               = Raise IsADirectoryError) ∧
  (fs !! path ≠ Some Directory →
   ∀ earlier writes model_id,
     (open_persistent_file path earlier fs ≫= write_all path writes)
       ≫= open_persistent_file path model_id
     = open_persistent_file path model_id fs ∧
     open_persistent_file path model_id fs
     = Return (<[path := File (session_header model_id)]> fs)).
Proof.
  split.
  - intros Hdir model_id. unfold open_persistent_file, write_text.
    by rewrite Hdir.
  - intros Hdir earlier writes model_id.
    assert (open_persistent_file path model_id fs
            = Return (<[path := File (session_header model_id)]> fs)) as Hopen.
    { unfold open_persistent_file, write_text.
      by destruct (fs !! path) as [[?|]|]. }
    split; [|done].
    rewrite open_then_write_all, Hopen by done. simpl.
    unfold open_persistent_file, write_text.
    by rewrite lookup_insert_eq, insert_insert_eq.
Qed.

Lemma open_persistent_file_resets_witness :
  (open_persistent_file session_path "eos3b5e" empty_disk
     ≫= write_all session_path ["Error count: 0"])
    ≫= open_persistent_file session_path "eos4e40"
  = open_persistent_file session_path "eos4e40" empty_disk ∧
  open_persistent_file session_path "eos4e40" empty_disk
  = Return (<[session_path := File (session_header "eos4e40")]> empty_disk).
Proof.
  apply (proj2 (open_persistent_file_resets session_path empty_disk)).
  discriminate.
Defined.

Lemma count_lines_accumulate (lines : list string) : ∀ error_count warning_count,
  count_lines lines error_count warning_count =
  (error_count + Z.of_nat (length (filter error_line lines)),
   warning_count + Z.of_nat (length (filter warning_line lines)))%Z.
Proof.
  induction lines as [|line lines IH]; intros error_count warning_count.
  { simpl. f_equal; lia. }
  simpl. rewrite !filter_cons.
  destruct (contains "| ERROR" line) eqn:Herror.
  - rewrite IH.
    rewrite (decide_True (P := error_line line)) by exact Herror.
    rewrite (decide_False (P := warning_line line))
      by (intros [Hno _]; congruence).
    simpl. f_equal; lia.
  - destruct (contains "| WARNING" line) eqn:Hwarning.
    + rewrite IH.
      rewrite (decide_False (P := error_line line))
        by (unfold error_line; congruence).
      rewrite (decide_True (P := warning_line line)) by done.
      simpl. f_equal; lia.
    + rewrite IH.
      rewrite (decide_False (P := error_line line))
        by (unfold error_line; congruence).
      rewrite (decide_False (P := warning_line line))
        by (intros [_ Hyes]; congruence).
      f_equal; lia.
Qed.

Lemma filter_disjoint_length {A} (P Q : A → Prop)
    `{∀ x, Decision (P x)} `{∀ x, Decision (Q x)} (l : list A) :
  (∀ x, P x → Q x → False) →
  (length (filter P l) + length (filter Q l) ≤ length l)%nat.
Proof.
  intros Hdisjoint. induction l as [|x l IH]; [done|].
  rewrite !filter_cons.
  destruct (decide (P x)), (decide (Q x)); simpl; try lia.
  by destruct (Hdisjoint x).
Qed.

(** X12: the loop of [log_files_metrics] counts the lines with the marker
    ["| ERROR"] as errors and the remaining lines with ["| WARNING"] as
    warnings; a line with both markers is counted once, as an error, so the
    two counts together never exceed the number of lines. *)
Theorem count_lines_counts (lines : list string) :
  count_lines lines 0 0 =
    (Z.of_nat (length (filter error_line lines)),
     Z.of_nat (length (filter warning_line lines))) ∧
  ((count_lines lines 0 0).1 + (count_lines lines 0 0).2
   ≤ Z.of_nat (length lines))%Z.
Proof.
  rewrite count_lines_accumulate. simpl. split; [done|].
  assert (length (filter error_line lines)
          + length (filter warning_line lines) ≤ length lines)%nat
    by (apply filter_disjoint_length; intros x ? [? ?]; congruence).
  lia.
Qed.

Section ArchiveProperties.
Variables (session logs : string).

Lemma log_files_metrics_open (file old log : string)
    (fs : gmap string node) :
  fs !! session = Some (File old) →
  fs !! file = Some (File log) →
  log_files_metrics session file fs =
  (Value (), <[session := File (old ++ metrics_text log)]> fs).
Proof.
  intros Hsession Hlog. unfold log_files_metrics, read_text. rewrite Hlog.
  rewrite (write_present session _ old) by done.
  rewrite (write_present session _ (old ++ _ ++ newline))
    by apply lookup_insert_eq.
  rewrite insert_insert_eq. unfold metrics_text.
  by rewrite !string_app_assoc.
Qed.

Lemma log_files_metrics_closed (file log : string) (fs : gmap string node) :
  isfile fs session = false →
  fs !! file = Some (File log) →
  log_files_metrics session file fs = (Value (), fs).
Proof.
  intros Hsession Hlog. unfold log_files_metrics, read_text. rewrite Hlog.
  by rewrite !write_absent.
Qed.

Lemma log_files_metrics_unreadable (file : string) (fs : gmap string node) :
  (fs !! file = None →
   log_files_metrics session file fs = (Error FileNotFoundError, fs)) ∧
  (fs !! file = Some Directory →
   log_files_metrics session file fs = (Error (Exn IsADirectoryError), fs)).
Proof.
  unfold log_files_metrics, read_text. split; by intros ->.
Qed.

End ArchiveProperties.

(** X13: with the session file open and a readable log file,
    [log_files_metrics] appends the line of the error count and the line of
    the warning count, in this order, to the session file and changes
    nothing else; without a session file it changes nothing; and when the
    log file is missing or a directory it raises before anything is
    written. *)
Theorem log_files_metrics_effect
    (session file : string) (fs : gmap string node) :
  (∀ old log, fs !! session = Some (File old) →
     fs !! file = Some (File log) →
     log_files_metrics session file fs =
     (Value (), <[session := File (old ++ metrics_text log)]> fs)) ∧
  (∀ log, isfile fs session = false → fs !! file = Some (File log) →
     log_files_metrics session file fs = (Value (), fs)) ∧
  (fs !! file = None →
     log_files_metrics session file fs = (Error FileNotFoundError, fs)) ∧
  (fs !! file = Some Directory →
     log_files_metrics session file fs = (Error (Exn IsADirectoryError), fs)).
Proof.
  split; [|split].
  - intros old log. apply log_files_metrics_open.
  - intros log. apply log_files_metrics_closed.
  - apply log_files_metrics_unreadable.
Qed.

Lemma log_files_metrics_effect_witness :
  log_files_metrics session_path log_path session_disk =
  (Value (),
   <[session_path := File (session_header "eos3b5e"
                            ++ metrics_text console_log)]> session_disk).
Proof.
  apply (proj1 (log_files_metrics_effect session_path log_path session_disk));
    reflexivity.
Defined.

(** The two lines for the example log: one error, one warning. *)
Example metrics_text_console_log :
  metrics_text console_log =
  "Error count: 1" ++ newline ++ "Warning count: 1" ++ newline.
Proof. by vm_compute. Qed.



(** X15: with the paths of the module, in a file system where the
    working directory is a directory, [close_persistent_file] never
    archives the session: it leaves every file as it was, returns when
    there is no session file, and raises [IsADirectoryError] when there is
    one, which stays in place without the count lines. *)
Theorem close_session_never_archives
    (cwd new_file_path : string) (fs : gmap string node) :
  fs !! cwd = Some Directory →
  (close_session cwd new_file_path fs).2 = fs ∧
  (isfile fs (PERSISTENT_FILE_PATH cwd) = false →
   (close_session cwd new_file_path fs).1 = Value ()) ∧
  (isfile fs (PERSISTENT_FILE_PATH cwd) = true →
   (close_session cwd new_file_path fs).1 = Error (Exn IsADirectoryError)).
Proof.
  intros Hcwd. unfold close_session, close_persistent_file.
  change (TEMP_FILE_LOGS cwd) with cwd.
  rewrite (proj2 (log_files_metrics_unreadable (PERSISTENT_FILE_PATH cwd)
                    cwd fs) Hcwd).
  by destruct (isfile fs (PERSISTENT_FILE_PATH cwd)).
Qed.

Lemma close_session_never_archives_witness :
  (close_session work_directory archive_path session_disk).2 = session_disk ∧
  (isfile session_disk (PERSISTENT_FILE_PATH work_directory) = false →
   (close_session work_directory archive_path session_disk).1 = Value ()) ∧
  (isfile session_disk (PERSISTENT_FILE_PATH work_directory) = true →
   (close_session work_directory archive_path session_disk).1
   = Error (Exn IsADirectoryError)).
Proof.
  apply (close_session_never_archives work_directory archive_path
           session_disk).
  reflexivity.
Defined.

(** The session file of the example is the one of the module, and closing
    it fails. *)
Example close_session_example :
  PERSISTENT_FILE_PATH work_directory = session_path ∧
  close_session work_directory archive_path session_disk
  = (Error (Exn IsADirectoryError), session_disk).
Proof. by vm_compute. Qed.

(** * Properties of the profiler *)




(** * Properties of track *)

(** X20: [track] fails before it looks at the frames when the run
    description is unusable: without the key ["metadata"] it raises
    [KeyError]; with a value there that is not a dictionary,
    [AttributeError]; and on a tracker that was never started,
    [TypeError]. *)
Theorem track_early_errors
    (memory_usage : DataFrame → list Z) (self : RunTracker) (now : Z)
    (input_df result_df : DataFrame) (meta : gmap string pyval)
    (tm : tracemalloc) :
  (meta !! "metadata" = None →
   track_json_dict memory_usage self now input_df result_df meta tm
   = (Error (Exn KeyError), tm)) ∧
  (∀ v, meta !! "metadata" = Some v → (∀ d, v ≠ PDict d) →
   track_json_dict memory_usage self now input_df result_df meta tm
   = (Error AttributeError, tm)) ∧
  (∀ d, meta !! "metadata" = Some (PDict d) →
   track_json_dict memory_usage RunTracker_init now input_df result_df meta tm
   = (Error (Exn TypeError), tm)).
Proof.
  unfold track_json_dict, dict_getitem. split; [|split].
  - by intros ->.
  - intros v -> Hv. destruct v; try done. by destruct (Hv d).
  - by intros d ->.
Qed.

Lemma track_early_errors_witness :
  track_json_dict fixed_width_memory_usage RunTracker_init 250
    one_float_frame one_float_frame run_meta busy_tracemalloc
  = (Error (Exn TypeError), busy_tracemalloc).
Proof.
  eapply (proj2 (proj2 (track_early_errors fixed_width_memory_usage
                          RunTracker_init 250 one_float_frame one_float_frame
                          run_meta busy_tracemalloc))).
  reflexivity.
Defined.

(** X21: on a started tracker, with a dictionary under ["metadata"] whose
    output type has a first element and whose output shape is declared, and
    a result frame with distinct labels, both identifier columns and
    numeric columns besides, [track] builds its dictionary, whatever the
    number of rows; the model identifier is the one declared, or
    ["Unknown"]. *)
Theorem track_builds_dictionary
    (memory_usage : DataFrame → list Z) (self : RunTracker)
    (now started : Z) (input_df result_df : DataFrame)
    (meta : gmap string pyval) (d : list (string * pyval))
    (ot first : pyval) (tm : tracemalloc) :
  time_start self = Some started →
  meta !! "metadata" = Some (PDict d) →
  pyval_dict (PDict d) !! "Output Type" = Some ot →
  getitem0 ot = Return first →
  is_Some (pyval_dict (PDict d) !! "Output Shape") →
  NoDup (labels result_df) →
  "key" ∈ labels result_df → "input" ∈ labels result_df →
  Forall numeric (non_identifier result_df) →
  ∃ record,
    track_json_dict memory_usage self now input_df result_df meta tm
      = (Value record, tracemalloc_stop tm) ∧
    json_model_id record =
      from_option id (PStr "Unknown")
        (pyval_dict (PDict d) !! "Identifier") ∧
    json_time_taken record = (now - started)%Z.
Proof.
  intros Hstart Hmeta Hot Hfirst Hshape Hnd Hkey Hinput Hnum.
  destruct (check_types_returns result_df (pyval_dict (PDict d)) ot first)
    as [checked Hcheck]; try done.
  destruct (stats_spec result_df) as (statistics & Hstats & _); try done.
  unfold track_json_dict, dict_getitem, time_taken.
  rewrite Hmeta, Hstart. simpl pyval_get. cbv iota beta.
  rewrite Hcheck, Hstats. simpl. eexists. split; [reflexivity|]. done.
Qed.

Lemma track_builds_dictionary_witness :
  ∃ record,
    track_json_dict fixed_width_memory_usage
      {| time_start := Some 100; memory_usage_start := 4096 |} 250
      empty_input_frame one_float_frame run_meta busy_tracemalloc
      = (Value record, tracemalloc_stop busy_tracemalloc) ∧
    json_model_id record =
      from_option id (PStr "Unknown")
        (pyval_dict (PDict [("Identifier", PStr "eos3b5e");
                            ("Output Type", PList [PStr "Float"]);
                            ("Output Shape", PStr "Single")])
           !! "Identifier") ∧
    json_time_taken record = (250 - 100)%Z.
Proof.
  apply (track_builds_dictionary fixed_width_memory_usage
           {| time_start := Some 100; memory_usage_start := 4096 |} 250 100
           empty_input_frame one_float_frame run_meta
           [("Identifier", PStr "eos3b5e");
            ("Output Type", PList [PStr "Float"]);
            ("Output Shape", PStr "Single")]
           (PList [PStr "Float"]) (PStr "Float") busy_tracemalloc).
  - reflexivity.
  - reflexivity.
  - reflexivity.
  - reflexivity.
  - eexists. reflexivity.
  - apply (bool_decide_unpack _). vm_compute. exact I.
  - apply (bool_decide_unpack _). vm_compute. exact I.
  - apply (bool_decide_unpack _). vm_compute. exact I.
  - repeat constructor. discriminate.
Defined.
